(** * Kangas service supervisor: a shallow embedding of
      [backend/kangas/__init__.py] and the properties of its process scan,
      its launcher and its presenter.

    The module talks to the operating system through [psutil], to the
    notebook through [IPython.display] and [google.colab], and to the
    desktop through [webbrowser] and [subprocess].  Those collaborators are
    modelled as data: a process table whose entries say what each [psutil]
    call answers (a value or an exception), an environment record for the
    helpers of [kangas.utils], and a chronological trace of the effects the
    module performs. *)

From Stdlib Require Import ZArith List String Ascii Bool DecimalString Lia.
Import ListNotations.
Open Scope string_scope.
Open Scope Z_scope.

(** ** Python strings *)

Module PyStr.

(** [str(n)] for a Python [int]. *)
Definition str (n : Z) : string := NilZero.string_of_int (Z.to_int n).

(** [s.startswith(p)]. *)
Definition startswith (s p : string) : bool := String.prefix p s.

(** [sub in s]. *)
Fixpoint contains (sub s : string) : bool :=
  String.prefix sub s ||
  match s with
  | EmptyString => false
  | String _ t => contains sub t
  end.

(** [sep.join(l)]. *)
Definition join (sep : string) (l : list string) : string :=
  String.concat sep l.

(** ["%s" % v] for a value that is a string or [None]. *)
Definition fmt_s (v : option string) : string :=
  match v with
  | Some s => s
  | None => "None"
  end.

Definition nl : string := String (ascii_of_nat 10) EmptyString.

(** *** [urllib.parse.urlencode] on a dictionary of strings.
    Keys and values go through [quote_plus]: the unreserved characters
    (letters, digits, [_ . - ~]) stay, a space becomes [+], every other
    byte becomes [%XX] in upper-case hexadecimal. *)

Definition in_range (lo hi : nat) (c : ascii) : bool :=
  (Nat.leb lo (nat_of_ascii c) && Nat.leb (nat_of_ascii c) hi)%bool.

Definition always_safe (c : ascii) : bool :=
  in_range 65 90 c || in_range 97 122 c || in_range 48 57 c
  || Ascii.eqb c "_" || Ascii.eqb c "." || Ascii.eqb c "-"
  || Ascii.eqb c "~".

Definition hex_digit (n : nat) : ascii :=
  if Nat.ltb n 10 then ascii_of_nat (48 + n) else ascii_of_nat (55 + n).

Definition percent (c : ascii) : string :=
  let n := nat_of_ascii c in
  String "%" (String (hex_digit (Nat.div n 16))
                     (String (hex_digit (Nat.modulo n 16)) EmptyString)).

Fixpoint quote_plus (s : string) : string :=
  match s with
  | EmptyString => EmptyString
  | String c t =>
      (if always_safe c then String c EmptyString
       else if Ascii.eqb c " " then "+"
       else percent c) ++ quote_plus t
  end.

Fixpoint urlencode (query : list (string * string)) : string :=
  match query with
  | [] => ""
  | [(k, v)] => quote_plus k ++ "=" ++ quote_plus v
  | (k, v) :: rest => quote_plus k ++ "=" ++ quote_plus v ++ "&" ++ urlencode rest
  end.

End PyStr.

(** ** Exceptions and results *)

Inductive Exn : Type :=
| NoSuchProcess
| AccessDenied
| ZombieProcess
| OSError
| MessageError.

Inductive result (A : Type) : Type :=
| Ok (a : A)
| Raise (e : Exn).
Arguments Ok {A} a.
Arguments Raise {A} e.

Definition rbind {A B} (r : result A) (k : A -> result B) : result B :=
  match r with
  | Ok a => k a
  | Raise e => Raise e
  end.

(** ** The [psutil] view of the operating system *)

Module Psutil.

Inductive Status : Type :=
| STATUS_RUNNING
| STATUS_SLEEPING
| STATUS_DISK_SLEEP
| STATUS_STOPPED
| STATUS_ZOMBIE
| STATUS_DEAD
| STATUS_IDLE.

Definition status_eqb (a b : Status) : bool :=
  match a, b with
  | STATUS_RUNNING, STATUS_RUNNING
  | STATUS_SLEEPING, STATUS_SLEEPING
  | STATUS_DISK_SLEEP, STATUS_DISK_SLEEP
  | STATUS_STOPPED, STATUS_STOPPED
  | STATUS_ZOMBIE, STATUS_ZOMBIE
  | STATUS_DEAD, STATUS_DEAD
  | STATUS_IDLE, STATUS_IDLE => true
  | _, _ => false
  end.

(** A process handle: what each method of [psutil.Process] answers when
    the module calls it.  Every method may raise. *)
Record Process : Type := mkProcess {
  pid : Z;
  name : result string;
  cmdline : result (list string);
  is_running : result bool;
  status : result Status;
  terminate : result unit
}.

(** The process table, in the order of [psutil.pids()]: each pid with the
    outcome of [psutil.Process(pid)]. *)
Definition Table : Type := list (Z * result Process).

Definition pids (t : Table) : list Z := map fst t.

(** [psutil.Process(pid)]: a pid that is not in the table is gone. *)
Fixpoint Process_ (t : Table) (p : Z) : result Process :=
  match t with
  | [] => Raise NoSuchProcess
  | (q, r) :: rest => if Z.eqb q p then r else Process_ rest p
  end.

End Psutil.

Import PyStr.

(** ** Effects of the module *)

Inductive Event : Type :=
| EvTerminate (pid : Z)
| EvEvalJs (js : string)
| EvPopen (args : list string)
| EvSleep (seconds : Z)
| EvDisplayJavascript (script : string)
| EvDisplayIFrame (src width height : string)
| EvBrowserOpen (url : string) (autoraise : bool).

Record World : Type := mkWorld {
  table : Psutil.Table;
  KANGAS_BACKEND_PROXY : option string;
  trace : list Event
}.

Inductive Outcome (A : Type) : Type :=
| Returns (a : A) (w : World)
| Raises (e : Exn) (w : World).
Arguments Returns {A} a w.
Arguments Raises {A} e w.

Definition M (A : Type) : Type := World -> Outcome A.

Definition ret {A} (a : A) : M A := fun w => Returns a w.

Definition bind {A B} (m : M A) (k : A -> M B) : M B :=
  fun w =>
    match m w with
    | Returns a w' => k a w'
    | Raises e w' => Raises e w'
    end.

Definition lift {A} (r : result A) : M A :=
  fun w =>
    match r with
    | Ok a => Returns a w
    | Raise e => Raises e w
    end.

Definition emit (e : Event) : M unit :=
  fun w => Returns tt (mkWorld (table w) (KANGAS_BACKEND_PROXY w) (trace w ++ [e])).

Definition final {A} (o : Outcome A) : World :=
  match o with
  | Returns _ w => w
  | Raises _ w => w
  end.

Declare Scope py_scope.
Delimit Scope py_scope with py.
Notation "x <- m ;; k" := (bind m (fun x => k))
  (at level 61, m at next level, right associativity) : py_scope.
Notation "m ;; k" := (bind m (fun _ => k))
  (at level 61, right associativity) : py_scope.
Open Scope py_scope.

(** The environment: the helpers of [kangas.utils], the interpreter path,
    and how the platform answers the module's requests. *)
Record Env : Type := mkEnv {
  get_localhost : option string;
  _in_colab_environment : bool;
  _in_jupyter_environment : bool;
  sys_executable : string;
  eval_js : string -> result (option string);
  Popen : list string -> result unit;
  on_terminate : Z -> Psutil.Table -> Psutil.Table;
  on_spawn : list string -> Psutil.Table -> Psutil.Table
}.

(** ** The process scanner *)

(** The test of lines 35 and 46:
    [process.name().startswith(name) and command in " ".join(process.cmdline())].
    [cmdline()] is only called when the name matches. *)
Definition matches (name command : string) (process : Psutil.Process)
  : result bool :=
  rbind (Psutil.name process) (fun n =>
    if startswith n name then
      rbind (Psutil.cmdline process) (fun argv =>
        Ok (contains command (join " " argv)))
    else Ok false).

(** [process.is_running() and process.status() != psutil.STATUS_ZOMBIE]. *)
Definition alive (process : Psutil.Process) : result bool :=
  rbind (Psutil.is_running process) (fun r =>
    if r then
      rbind (Psutil.status process) (fun s =>
        Ok (negb (Psutil.status_eqb s Psutil.STATUS_ZOMBIE)))
    else Ok false).

(** [_is_running] (lines 29-37): only [psutil.Process(pid)] stands inside
    the [try]. *)
Fixpoint _is_running_loop (t : Psutil.Table) (name command : string)
  (pids : list Z) : result bool :=
  match pids with
  | [] => Ok false
  | pid :: rest =>
      match Psutil.Process_ t pid with
      | Raise _ => _is_running_loop t name command rest
      | Ok process =>
          rbind (matches name command process) (fun m =>
            if m then alive process
            else _is_running_loop t name command rest)
      end
  end.

Definition _is_running (name command : string) (w : World) : result bool :=
  _is_running_loop (table w) name command (Psutil.pids (table w)).

(** ** The supervisor and the presenter *)

(** The attribute names the module hands to [_process_method]. *)
Inductive Method : Type :=
| m_terminate.

Definition get_global : M (option string) :=
  fun w => Returns (KANGAS_BACKEND_PROXY w) w.

Definition set_global (v : option string) : M unit :=
  fun w => Returns tt (mkWorld (table w) v (trace w)).

Definition truthy (v : option string) : bool :=
  match v with
  | None => false
  | Some EmptyString => false
  | Some _ => true
  end.

Section Kangas.

Variable env : Env.

Definition os_update (f : Psutil.Table -> Psutil.Table) : M unit :=
  fun w => Returns tt (mkWorld (f (table w)) (KANGAS_BACKEND_PROXY w) (trace w)).

(** [getattr(process, method)()]. *)
Definition call_method (process : Psutil.Process) (method : Method) : M unit :=
  match method with
  | m_terminate =>
      emit (EvTerminate (Psutil.pid process)) ;;
      lift (Psutil.terminate process) ;;
      os_update (on_terminate env (Psutil.pid process))
  end.

(** [_process_method] (lines 40-47): the call of line 47 is a [return]
    inside the loop and stands outside the [try]. *)
Fixpoint _process_method_loop (name command : string) (method : Method)
  (pids : list Z) : M unit :=
  fun w =>
    match pids with
    | [] => Returns tt w
    | pid :: rest =>
        match Psutil.Process_ (table w) pid with
        | Raise _ => _process_method_loop name command method rest w
        | Ok process =>
            match matches name command process with
            | Raise e => Raises e w
            | Ok true => call_method process method w
            | Ok false => _process_method_loop name command method rest w
            end
        end
    end.

Definition _process_method (name command : string) (method : Method) : M unit :=
  fun w => _process_method_loop name command method (Psutil.pids (table w)) w.

(** [terminate] (lines 61-62): the two probes, one after the other. *)
Definition terminate : M unit :=
  _process_method "node" "kangas" m_terminate ;;
  _process_method "kangas" "server" m_terminate.

Definition output_eval_js (js : string) : M (option string) :=
  emit (EvEvalJs js) ;; lift (eval_js env js).

Definition subprocess_Popen (args : list string) : M unit :=
  emit (EvPopen args) ;;
  lift (Popen env args) ;;
  os_update (on_spawn env args).

Definition time_sleep (seconds : Z) : M unit := emit (EvSleep seconds).

Definition proxy_js (port : Z) : string :=
  "(async () => {return await google.colab.kernel.proxyPort("
    ++ str port ++ ")})()".

Definition spawn_args (host : option string) (port : Z) (debug : bool)
  (proxy : option string) : list string :=
  [sys_executable env; "-m"; "kangas.cli.server";
   "--frontend-port"; str port;
   "--backend-port"; str (port + 1);
   "--open"; "no"]
  ++ (match host with Some h => ["--host"; h] | None => [] end)
  ++ (match proxy with Some p => ["--backend-proxy"; p] | None => [] end)
  ++ (if debug then ["--debug"] else []).

Definition resolve_host (host : option string) : option string :=
  match host with
  | Some h => Some h
  | None => get_localhost env
  end.

Definition frontend_url (host : option string) (port : Z) : string :=
  "http://" ++ fmt_s host ++ ":" ++ str port ++ "/".

(** [launch] (lines 87-125).  The running check may raise; so may
    [terminate], [eval_js] and [Popen]. *)
Definition launch (host : option string) (port : Z) (debug : bool) : M string :=
  let host := resolve_host host in
  running <- (fun w => lift (_is_running "node" "kangas" w) w) ;;
  (if negb running then
     terminate ;;
     (if _in_colab_environment env then
        v <- output_eval_js (proxy_js (port + 1)) ;;
        set_global v
      else ret tt) ;;
     proxy <- get_global ;;
     subprocess_Popen (spawn_args host port debug proxy) ;;
     time_sleep 2
   else ret tt) ;;
  ret (frontend_url host port).

(** The script of lines 170-181 after [str.format]. *)
Definition colab_script (port : Z) (width height qvs : string) : string :=
  nl ++ "(async ()=>{" ++ nl
  ++ "    fm = document.createElement('iframe');" ++ nl
  ++ "    fm.src = (await google.colab.kernel.proxyPort(" ++ str port
  ++ ")) + '" ++ qvs ++ "';" ++ nl
  ++ "    fm.width = '" ++ width ++ "';" ++ nl
  ++ "    fm.height = '" ++ height ++ "';" ++ nl
  ++ "    fm.frameBorder = 0;" ++ nl
  ++ "    document.body.append(fm);" ++ nl
  ++ "})();" ++ nl.

(** Lines 160-165: the query string and the URL with it. *)
Definition query_of (datagrid : option string) : string :=
  match datagrid with
  | Some d => if truthy datagrid
              then "?" ++ urlencode [("datagrid", d)]
              else ""
  | None => ""
  end.

(** [show], from the call of [launch] on line 158; the import of
    [IPython.display] on line 156 is taken to succeed.  [display] and
    [webbrowser.open] are recorded in the trace. *)
Definition show (datagrid host : option string) (port : Z) (debug : bool)
  (height width : string) : M unit :=
  url <- launch host port debug ;;
  let qvs := query_of datagrid in
  let url := if truthy datagrid then url ++ qvs else url in
  if _in_colab_environment env then
    emit (EvDisplayJavascript (colab_script port width height qvs))
  else if _in_jupyter_environment env then
    emit (EvDisplayIFrame url width height)
  else
    emit (EvBrowserOpen url true).

End Kangas.

(** ** Sample processes and platforms *)

Definition live (p : Z) (n : string) (argv : list string) : Psutil.Process :=
  Psutil.mkProcess p (Ok n) (Ok argv) (Ok true) (Ok Psutil.STATUS_SLEEPING) (Ok tt).

Definition zombie (p : Z) (n : string) (argv : list string) : Psutil.Process :=
  Psutil.mkProcess p (Ok n) (Ok argv) (Ok true) (Ok Psutil.STATUS_ZOMBIE) (Ok tt).

(** A process that exists but whose [name()] is refused. *)
Definition unreadable (p : Z) : Psutil.Process :=
  Psutil.mkProcess p (Raise AccessDenied) (Raise AccessDenied) (Ok true)
    (Ok Psutil.STATUS_SLEEPING) (Raise AccessDenied).

(** A live process that refuses the termination signal. *)
Definition stubborn (p : Z) (n : string) (argv : list string) : Psutil.Process :=
  Psutil.mkProcess p (Ok n) (Ok argv) (Ok true) (Ok Psutil.STATUS_SLEEPING)
    (Raise AccessDenied).

Definition entry (process : Psutil.Process) : Z * result Psutil.Process :=
  (Psutil.pid process, Ok process).

Definition world_of (t : Psutil.Table) : World := mkWorld t None [].

(** A platform on which a terminated process leaves the table and a spawned
    server does not show up yet. *)
Definition drop_pid (p : Z) (t : Psutil.Table) : Psutil.Table :=
  filter (fun e => negb (Z.eqb (fst e) p)) t.

Definition platform (colab jupyter : bool) : Env :=
  mkEnv (Some "127.0.0.1") colab jupyter "/usr/bin/python3"
    (fun _ => Ok (Some "https://proxy.example/"))
    (fun _ => Ok tt)
    drop_pid
    (fun _ t => t).

(** A platform on which the spawned pair shows up in the table. *)
Definition spawning_platform : Env :=
  mkEnv (Some "127.0.0.1") false false "/usr/bin/python3"
    (fun _ => Ok None)
    (fun _ => Ok tt)
    drop_pid
    (fun _ t =>
       t ++ [entry (live 21 "node" ["node"; "/opt/kangas/server.js"]);
             entry (live 22 "kangas" ["kangas"; "server"])])%list.

Definition init_entry := entry (live 1 "init" ["/sbin/init"]).
Definition node_entry := entry (live 7 "node" ["node"; "/opt/kangas/server.js"]).
Definition node_entry' := entry (live 9 "node" ["node"; "kangas"]).
Definition node_zombie := entry (zombie 7 "node" ["node"; "/opt/kangas/server.js"]).
Definition server_entry :=
  entry (live 11 "kangas" ["kangas"; "server"; "--frontend-port"; "4000"]).

(** ** Facts about the scan *)

(** The scan moves past a pid when its lookup raises or when its process
    fails the test. *)
Definition passed_over (name command : string) (t : Psutil.Table) (pid : Z)
  : Prop :=
  match Psutil.Process_ t pid with
  | Raise _ => True
  | Ok process => matches name command process = Ok false
  end.

(** [emits P m]: whatever [m] does, it only appends to the trace, and
    every event it appends satisfies [P]. *)
Definition emits {A} (P : Event -> Prop) (m : M A) : Prop :=
  forall w, exists evs,
    trace (final (m w)) = (trace w ++ evs)%list /\ Forall P evs.

Definition is_terminate_ev (e : Event) : Prop :=
  match e with
  | EvTerminate _ => True
  | _ => False
  end.

(** What [launch] may do for a given frontend port: signal processes, ask
    the cloud proxy about port + 1, spawn the server with the backend port
    set to port + 1, and sleep. *)
Definition launch_event (port : Z) (e : Event) : Prop :=
  match e with
  | EvTerminate _ => True
  | EvEvalJs js =>
      js = "(async () => {return await google.colab.kernel.proxyPort("
             ++ str (port + 1) ++ ")})()"
  | EvPopen args =>
      nth_error args 3 = Some "--frontend-port"
      /\ nth_error args 4 = Some (str port)
      /\ nth_error args 5 = Some "--backend-port"
      /\ nth_error args 6 = Some (str (port + 1))
  | EvSleep s => s = 2
  | _ => False
  end.

Definition is_spawn_ev (e : Event) : Prop :=
  match e with
  | EvPopen _ => True
  | _ => False
  end.

(** The three display channels of [show]. *)
Inductive ExecutionContext : Type :=
| CloudNotebook
| ManagedNotebook
| PlainHost.

Definition channel (e : Event) : option ExecutionContext :=
  match e with
  | EvDisplayJavascript _ => Some CloudNotebook
  | EvDisplayIFrame _ _ _ => Some ManagedNotebook
  | EvBrowserOpen _ _ => Some PlainHost
  | _ => None
  end.

(** The world after one more event. *)
Definition after (w : World) (e : Event) : World :=
  mkWorld (table w) (KANGAS_BACKEND_PROXY w) (trace w ++ [e]).

(** Does a script ask the cloud proxy for this port? *)
Definition requests_proxy_for (script : string) (port : Z) : bool :=
  contains ("proxyPort(" ++ str port ++ ")") script.

(** Sample tables. *)
Definition quiet_table : Psutil.Table := [init_entry].
Definition running_table : Psutil.Table := [init_entry; node_entry'; server_entry].
Definition two_nodes : Psutil.Table :=
  [init_entry; node_entry; node_entry'; server_entry].
Definition zombie_first : Psutil.Table :=
  [init_entry; node_zombie; node_entry'].
Definition vanished_table : Psutil.Table :=
  [(3, Raise NoSuchProcess); node_entry'].
Definition unreadable_table : Psutil.Table :=
  [entry (unreadable 3); node_entry'].
Definition other_node_table : Psutil.Table :=
  [init_entry; entry (live 5 "node" ["node"; "app.js"])].
Definition zombie_only : Psutil.Table := [init_entry; node_zombie].
Definition stubborn_table : Psutil.Table :=
  [entry (stubborn 7 "node" ["node"; "kangas"]); server_entry].

(** A node process whose name is readable and whose command line is not,
    and a process of another name of which nothing but the name is
    readable. *)
Definition halfread_table : Psutil.Table :=
  [init_entry;
   (4, Ok (Psutil.mkProcess 4 (Ok "node") (Raise AccessDenied)
             (Ok true) (Ok Psutil.STATUS_SLEEPING) (Ok tt)));
   node_entry'].
Definition systemd_table : Psutil.Table :=
  [(2, Ok (Psutil.mkProcess 2 (Ok "systemd") (Raise AccessDenied)
             (Raise AccessDenied) (Raise AccessDenied) (Ok tt)));
   node_entry'].

(** The world after [process.terminate()] on [pid] has gone through: the
    signal is in the trace and the platform has updated the table. *)
Definition signalled (env : Env) (w : World) (pid : Z) : World :=
  mkWorld (on_terminate env pid (table w)) (KANGAS_BACKEND_PROXY w)
    (trace w ++ [EvTerminate pid]).

(** Counting the spawns and the sleeps of a trace. *)
Definition is_popen_b (e : Event) : bool :=
  match e with
  | EvPopen _ => true
  | _ => false
  end.

Definition is_sleep_b (e : Event) : bool :=
  match e with
  | EvSleep _ => true
  | _ => false
  end.

(** The command line of the server, as [launch] must build it. *)
Definition server_command (env : Env) (host : option string) (debug : bool)
  (args : list string) : Prop :=
  nth_error args 0 = Some (sys_executable env)
  /\ nth_error args 1 = Some "-m"
  /\ nth_error args 2 = Some "kangas.cli.server"
  /\ nth_error args 7 = Some "--open"
  /\ nth_error args 8 = Some "no"
  /\ (forall h, host = Some h ->
        nth_error args 9 = Some "--host" /\ nth_error args 10 = Some h)
  /\ (debug = true -> exists front, args = (front ++ ["--debug"])%list).

Lemma prefix_app (p s : string) : String.prefix p (p ++ s) = true.
Proof.
  induction p as [|c p IH]; simpl.
  - destruct s; reflexivity.
  - destruct (ascii_dec c c) as [_|N]; [exact IH | contradiction].
Qed.

Lemma contains_prefix (sub s : string) :
  String.prefix sub s = true -> contains sub s = true.
Proof. intros H. destruct s; cbn [contains]; rewrite H; reflexivity. Qed.

Lemma contains_app (sub a b : string) : contains sub (a ++ sub ++ b) = true.
Proof.
  induction a as [|c a IH].
  - change ("" ++ sub ++ b) with (sub ++ b).
    apply contains_prefix, prefix_app.
  - change (String c a ++ sub ++ b) with (String c (a ++ sub ++ b)).
    cbn [contains]. rewrite IH. apply orb_true_r.
Qed.

Lemma append_assoc (a b c : string) : (a ++ b) ++ c = a ++ b ++ c.
Proof. induction a as [|x a IH]; simpl; [reflexivity | rewrite IH; reflexivity]. Qed.

Lemma contains_split (sub s a b : string) :
  s = a ++ sub ++ b -> contains sub s = true.
Proof. intros ->. apply contains_app. Qed.

Lemma is_running_loop_skip t name command pre rest :
  Forall (passed_over name command t) pre ->
  _is_running_loop t name command (pre ++ rest)
  = _is_running_loop t name command rest.
Proof.
  induction 1 as [|pid pre Hp _ IH]; simpl; [reflexivity|].
  unfold passed_over in Hp.
  destruct (Psutil.Process_ t pid) as [process|e]; [|exact IH].
  rewrite Hp; simpl. exact IH.
Qed.

Lemma is_running_loop_hit t name command pid process rest :
  Psutil.Process_ t pid = Ok process ->
  matches name command process = Ok true ->
  _is_running_loop t name command (pid :: rest) = alive process.
Proof. intros Hl Hm; simpl. rewrite Hl, Hm. reflexivity. Qed.

Lemma is_running_loop_none t name command pids :
  Forall (passed_over name command t) pids ->
  _is_running_loop t name command pids = Ok false.
Proof.
  intros H. rewrite <- (app_nil_r pids).
  rewrite is_running_loop_skip by exact H. reflexivity.
Qed.

Lemma process_method_loop_skip env name command method pre rest w :
  Forall (passed_over name command (table w)) pre ->
  _process_method_loop env name command method (pre ++ rest) w
  = _process_method_loop env name command method rest w.
Proof.
  induction 1 as [|pid pre Hp _ IH]; simpl; [reflexivity|].
  unfold passed_over in Hp.
  destruct (Psutil.Process_ (table w) pid) as [process|e]; [|exact IH].
  rewrite Hp. exact IH.
Qed.

Lemma process_method_loop_hit env name command method pid process rest w :
  Psutil.Process_ (table w) pid = Ok process ->
  matches name command process = Ok true ->
  _process_method_loop env name command method (pid :: rest) w
  = call_method env process method w.
Proof. intros Hl Hm; simpl. rewrite Hl, Hm. reflexivity. Qed.

Lemma process_method_loop_none env name command method pids w :
  Forall (passed_over name command (table w)) pids ->
  _process_method_loop env name command method pids w = Returns tt w.
Proof.
  intros H. rewrite <- (app_nil_r pids).
  rewrite process_method_loop_skip by exact H. reflexivity.
Qed.

(** A process whose name is readable and whose command line, when the name
    has the prefix, is readable and lacks the substring fails the test. *)
Lemma matches_without_substring name command process n :
  Psutil.name process = Ok n ->
  (startswith n name = true ->
   exists argv, Psutil.cmdline process = Ok argv
                /\ contains command (join " " argv) = false) ->
  matches name command process = Ok false.
Proof.
  intros Hn Hc. unfold matches. rewrite Hn; simpl.
  destruct (startswith n name); [|reflexivity].
  destruct (Hc eq_refl) as (argv & Ha & Hs). rewrite Ha; simpl.
  rewrite Hs. reflexivity.
Qed.

Ltac passed :=
  repeat (first [ apply Forall_nil
                | apply Forall_cons; [vm_compute; first [exact I | reflexivity]|] ]).

(** ** The running check *)

(** C7. [_is_running] answers false when no process carries the substring
    in its command line, whatever the names are, and answers false when the
    process that matches is a zombie or is no longer running. *)
Theorem is_running_false_without_substring_or_when_zombie :
  forall (name command : string) (w : World),
    ((forall pid process,
         In pid (Psutil.pids (table w)) ->
         Psutil.Process_ (table w) pid = Ok process ->
         exists n, Psutil.name process = Ok n
           /\ (startswith n name = true ->
               exists argv, Psutil.cmdline process = Ok argv
                            /\ contains command (join " " argv) = false)) ->
     _is_running name command w = Ok false)
    /\
    (forall pre pid post process,
        Psutil.pids (table w) = (pre ++ pid :: post)%list ->
        Forall (passed_over name command (table w)) pre ->
        Psutil.Process_ (table w) pid = Ok process ->
        matches name command process = Ok true ->
        (Psutil.is_running process = Ok false
         \/ (Psutil.is_running process = Ok true
             /\ Psutil.status process = Ok Psutil.STATUS_ZOMBIE)) ->
        _is_running name command w = Ok false).
Proof.
  intros name command w; split.
  - intros H. unfold _is_running. apply is_running_loop_none.
    apply Forall_forall. intros pid Hin. unfold passed_over.
    destruct (Psutil.Process_ (table w) pid) as [process|e] eqn:E; [|exact I].
    destruct (H pid process Hin E) as (n & Hn & Hc).
    eapply matches_without_substring; eauto.
  - intros pre pid post process Hp Hpre Hl Hm Hz.
    unfold _is_running. rewrite Hp, is_running_loop_skip by exact Hpre.
    rewrite (is_running_loop_hit _ _ _ _ _ _ Hl Hm).
    unfold alive. destruct Hz as [Hr | [Hr Hs]]; rewrite Hr; simpl.
    + reflexivity.
    + rewrite Hs. reflexivity.
Qed.

(** C10. The first process, in enumeration order, that passes the test
    decides: the answer is the liveness of that process, whatever follows
    it in the enumeration; when it is a zombie the answer is false. *)
Theorem is_running_decided_by_first_match :
  forall (name command : string) (w : World) pre pid post process,
    Psutil.pids (table w) = (pre ++ pid :: post)%list ->
    Forall (passed_over name command (table w)) pre ->
    Psutil.Process_ (table w) pid = Ok process ->
    matches name command process = Ok true ->
    _is_running name command w = alive process
    /\ (forall later,
           _is_running_loop (table w) name command (pre ++ pid :: later)%list
           = alive process)
    /\ (Psutil.is_running process = Ok true ->
        Psutil.status process = Ok Psutil.STATUS_ZOMBIE ->
        _is_running name command w = Ok false).
Proof.
  intros name command w pre pid post process Hp Hpre Hl Hm.
  assert (Hany : forall later,
             _is_running_loop (table w) name command (pre ++ pid :: later)%list
             = alive process).
  { intros later. rewrite is_running_loop_skip by exact Hpre.
    exact (is_running_loop_hit _ _ _ _ _ _ Hl Hm). }
  assert (Hrun : _is_running name command w = alive process).
  { unfold _is_running. rewrite Hp. apply Hany. }
  repeat split; [exact Hrun | exact Hany |].
  intros Hr Hs. rewrite Hrun. unfold alive. rewrite Hr; simpl.
  rewrite Hs. reflexivity.
Qed.

(** C2. The scan skips a pid whose lookup raises, but a process whose
    lookup succeeds and whose [name()] raises aborts both scans. *)
Theorem scan_aborts_on_unreadable_name :
  _is_running "node" "kangas" (world_of vanished_table) = Ok true
  /\ _is_running "node" "kangas" (world_of unreadable_table)
     = Raise AccessDenied
  /\ _process_method (platform false false) "node" "kangas" m_terminate
       (world_of unreadable_table)
     = Raises AccessDenied (world_of unreadable_table).
Proof. repeat split; reflexivity. Qed.

(** ** Traces of the monadic operations *)

Lemma emits_ret {A} (P : Event -> Prop) (a : A) : emits P (ret a).
Proof. intros w; exists []; simpl. rewrite app_nil_r. auto. Qed.

Lemma emits_lift {A} (P : Event -> Prop) (r : result A) : emits P (lift r).
Proof.
  intros w; exists []; unfold lift. rewrite app_nil_r.
  destruct r; simpl; auto.
Qed.

Lemma emits_emit (P : Event -> Prop) (e : Event) : P e -> emits P (emit e).
Proof. intros H w; exists [e]; simpl; auto. Qed.

Lemma emits_bind {A B} (P : Event -> Prop) (m : M A) (k : A -> M B) :
  emits P m -> (forall a, emits P (k a)) -> emits P (bind m k).
Proof.
  intros Hm Hk w. unfold bind.
  destruct (Hm w) as (evs1 & H1 & F1).
  destruct (m w) as [a w'|e w']; simpl in H1.
  - destruct (Hk a w') as (evs2 & H2 & F2).
    exists (evs1 ++ evs2)%list. rewrite H2, H1, app_assoc.
    split; [reflexivity | apply Forall_app; auto].
  - exists evs1; simpl; auto.
Qed.

Lemma emits_weaken {A} (P Q : Event -> Prop) (m : M A) :
  (forall e, P e -> Q e) -> emits P m -> emits Q m.
Proof.
  intros HPQ Hm w. destruct (Hm w) as (evs & H & F).
  exists evs; split; [exact H | eapply Forall_impl; eauto].
Qed.

Lemma emits_silent {A} (P : Event -> Prop) (m : M A) :
  (forall w, trace (final (m w)) = trace w) -> emits P m.
Proof. intros H w; exists []. rewrite app_nil_r. auto. Qed.

Lemma call_method_trace env process method w :
  trace (final (call_method env process method w))
  = (trace w ++ [EvTerminate (Psutil.pid process)])%list.
Proof.
  destruct method. unfold call_method, bind, emit, lift, os_update; simpl.
  destruct (Psutil.terminate process); reflexivity.
Qed.

Lemma process_method_loop_trace env name command method pids w :
  exists evs,
    trace (final (_process_method_loop env name command method pids w))
    = (trace w ++ evs)%list
    /\ Forall is_terminate_ev evs /\ (List.length evs <= 1)%nat.
Proof.
  induction pids as [|pid rest IH]; simpl.
  - exists []. rewrite app_nil_r. auto.
  - destruct (Psutil.Process_ (table w) pid) as [process|e]; [|exact IH].
    destruct (matches name command process) as [[|]|e]; simpl.
    + exists [EvTerminate (Psutil.pid process)].
      rewrite call_method_trace.
      split; [reflexivity | split; [repeat constructor | simpl; lia]].
    + exact IH.
    + exists []. rewrite app_nil_r. auto.
Qed.

Lemma terminate_trace env w :
  exists evs,
    trace (final (terminate env w)) = (trace w ++ evs)%list
    /\ Forall is_terminate_ev evs /\ (List.length evs <= 2)%nat.
Proof.
  unfold terminate, bind, _process_method.
  destruct (process_method_loop_trace env "node" "kangas" m_terminate
              (Psutil.pids (table w)) w) as (evs1 & H1 & F1 & L1).
  destruct (_process_method_loop env "node" "kangas" m_terminate
              (Psutil.pids (table w)) w) as [[] w1|e w1]; simpl in H1.
  - destruct (process_method_loop_trace env "kangas" "server" m_terminate
                (Psutil.pids (table w1)) w1) as (evs2 & H2 & F2 & L2).
    exists (evs1 ++ evs2)%list. rewrite H2, H1, app_assoc, List.length_app.
    repeat split; [apply Forall_app; auto | lia].
  - exists evs1. simpl. repeat split; auto.
Qed.

Lemma emits_terminate env : emits is_terminate_ev (terminate env).
Proof.
  intros w. destruct (terminate_trace env w) as (evs & H & F & _).
  exists evs; auto.
Qed.

Lemma bind_returns {A B} (m : M A) (k : A -> M B) w b w2 :
  bind m k w = Returns b w2 ->
  exists a w1, m w = Returns a w1 /\ k a w1 = Returns b w2.
Proof.
  unfold bind. destruct (m w) as [a w1|e w1]; [|discriminate].
  intros H; exists a, w1; auto.
Qed.

Lemma spawn_args_ports env host port debug proxy :
  launch_event port (EvPopen (spawn_args env host port debug proxy)).
Proof. repeat split. Qed.

Lemma emits_launch env host port debug :
  emits (launch_event port) (launch env host port debug).
Proof.
  unfold launch. apply emits_bind.
  - apply emits_silent. intros w; unfold lift.
    destruct (_is_running "node" "kangas" w); reflexivity.
  - intros running. apply emits_bind; [|intros; apply emits_ret].
    destruct running; simpl; [apply emits_ret|].
    apply emits_bind.
    { eapply emits_weaken; [|apply emits_terminate].
      intros e H; destruct e; simpl in *; solve [exact I | contradiction]. }
    intros _. apply emits_bind.
    { destruct (_in_colab_environment env); [|apply emits_ret].
      apply emits_bind.
      - unfold output_eval_js. apply emits_bind.
        + apply emits_emit. reflexivity.
        + intros; apply emits_lift.
      - intros v. apply emits_silent. reflexivity. }
    intros _. apply emits_bind; [apply emits_silent; reflexivity|].
    intros proxy. apply emits_bind.
    { unfold subprocess_Popen. apply emits_bind.
      - apply emits_emit, spawn_args_ports.
      - intros _. apply emits_bind; [apply emits_lift|].
        intros _. apply emits_silent. reflexivity. }
    intros _. apply emits_emit. reflexivity.
Qed.

Lemma launch_returns_url env host port debug w url w1 :
  launch env host port debug w = Returns url w1 ->
  url = frontend_url (resolve_host env host) port.
Proof.
  unfold launch. intros H.
  apply bind_returns in H. destruct H as (running & wa & _ & H).
  apply bind_returns in H. destruct H as (u & wb & _ & H).
  unfold ret in H. congruence.
Qed.

Lemma is_running_true_first_match t name command pids :
  _is_running_loop t name command pids = Ok true ->
  exists pre pid post process,
    pids = (pre ++ pid :: post)%list
    /\ Forall (passed_over name command t) pre
    /\ Psutil.Process_ t pid = Ok process
    /\ matches name command process = Ok true.
Proof.
  induction pids as [|pid rest IH]; simpl; [discriminate|].
  destruct (Psutil.Process_ t pid) as [process|e] eqn:E.
  - destruct (matches name command process) as [[|]|e] eqn:Em; simpl.
    + intros _. exists [], pid, rest, process. auto.
    + intros H. destruct (IH H) as (pre & q & post & pr & -> & F & L & Mq).
      exists (pid :: pre), q, post, pr. repeat split; auto.
      constructor; [|exact F]. unfold passed_over. rewrite E. exact Em.
    + discriminate.
  - intros H. destruct (IH H) as (pre & q & post & pr & -> & F & L & Mq).
    exists (pid :: pre), q, post, pr. repeat split; auto.
    constructor; [|exact F]. unfold passed_over. rewrite E. exact I.
Qed.

(** A world on which the running check answers true is a world on which
    [terminate] would signal a process. *)
Lemma terminate_signals_when_running env w :
  _is_running "node" "kangas" w = Ok true ->
  exists pid evs,
    trace (final (terminate env w)) = (trace w ++ EvTerminate pid :: evs)%list.
Proof.
  unfold _is_running. intros H.
  destruct (is_running_true_first_match _ _ _ _ H)
    as (pre & pid & post & process & Hp & F & L & Mp).
  unfold terminate, bind, _process_method. rewrite Hp.
  rewrite process_method_loop_skip by exact F.
  rewrite (process_method_loop_hit _ _ _ _ _ _ _ _ L Mp).
  pose proof (call_method_trace env process m_terminate w) as T.
  destruct (call_method env process m_terminate w) as [[] w1|e w1];
    simpl in T.
  - destruct (process_method_loop_trace env "kangas" "server" m_terminate
                (Psutil.pids (table w1)) w1) as (evs & H2 & _).
    exists (Psutil.pid process), evs.
    rewrite H2, T, <- app_assoc. reflexivity.
  - exists (Psutil.pid process), []. exact T.
Qed.

(** ** The launcher *)

(** C4. When the running check answers true, [launch] leaves the world as
    it found it (no signal, no spawn, no sleep) and returns
    [http://{host}:{port}/] for the resolved host; [terminate], had it
    been called on that world, would have left a signal in the trace. *)
Theorem launch_when_running_only_returns_url :
  forall env host port debug w,
    _is_running "node" "kangas" w = Ok true ->
    launch env host port debug w
    = Returns ("http://" ++ fmt_s (resolve_host env host) ++ ":"
                 ++ str port ++ "/") w
    /\ trace (final (launch env host port debug w)) = trace w
    /\ (forall h, host = Some h ->
          launch env host port debug w
          = Returns ("http://" ++ h ++ ":" ++ str port ++ "/") w)
    /\ (exists pid evs,
          trace (final (terminate env w))
          = (trace w ++ EvTerminate pid :: evs)%list).
Proof.
  intros env host port debug w H.
  assert (E : launch env host port debug w
              = Returns (frontend_url (resolve_host env host) port) w).
  { unfold launch, bind, lift. rewrite H. reflexivity. }
  split; [exact E|]. split; [rewrite E; reflexivity|].
  split; [intros h ->; exact E|].
  apply terminate_signals_when_running. exact H.
Qed.

(** C5. When the running check answers false, the first thing [launch]
    does is what [terminate] does on the same world; everything else, the
    spawn included, comes after it, and a failure of [terminate] ends
    [launch] before any spawn. *)
Theorem launch_terminates_before_spawning :
  forall env host port debug w,
    _is_running "node" "kangas" w = Ok false ->
    exists cleanup rest,
      trace (final (terminate env w)) = (trace w ++ cleanup)%list
      /\ trace (final (launch env host port debug w))
         = (trace w ++ cleanup ++ rest)%list
      /\ Forall is_terminate_ev cleanup
      /\ Forall (fun e => ~ is_terminate_ev e) rest
      /\ (forall e w1, terminate env w = Raises e w1 ->
            launch env host port debug w = Raises e w1 /\ rest = [])
      /\ (forall url w2, launch env host port debug w = Returns url w2 ->
            exists args, In (EvPopen args) rest).
Proof.
  intros env host port debug w H.
  destruct (terminate_trace env w) as (cleanup & Hc & Fc & _).
  exists cleanup.
  remember (launch env host port debug w) as L eqn:EL.
  unfold launch, bind, lift in EL. rewrite H in EL. cbn [negb] in EL.
  destruct (terminate env w) as [[] w1|e w1]; simpl in Hc.
  - unfold output_eval_js, subprocess_Popen, time_sleep, set_global,
      get_global, os_update, emit, lift, bind, ret in EL.
    destruct (_in_colab_environment env); simpl in EL;
      [destruct (eval_js env (proxy_js (port + 1))) as [v|e]; simpl in EL|];
      try match type of EL with
          | context [Popen env ?a] => destruct (Popen env a) as [[]|e']
          end;
      simpl in EL; subst L; simpl; rewrite Hc;
      eexists; (split; [reflexivity|]);
      (split; [rewrite <- !app_assoc; simpl; reflexivity|]);
      (split; [exact Fc|]);
      (split; [repeat constructor; simpl; tauto|]);
      (split; [intros ? ? D; discriminate D|]);
      intros u w2 D; try discriminate D;
      eexists; simpl; eauto.
  - subst L. exists []. simpl. rewrite app_nil_r.
    split; [exact Hc|]. split; [exact Hc|]. split; [exact Fc|].
    split; [constructor|]. split.
    + intros e0 w0 D. inversion D; subst. split; reflexivity.
    + intros u w2 D; discriminate D.
Qed.

(** C6. Whatever [launch] does for a frontend port, each request to the
    cloud proxy is for port + 1 and each spawn passes [--frontend-port]
    with the port and [--backend-port] with port + 1. *)
Theorem launch_backend_port_is_frontend_plus_one :
  forall env host port debug w,
    exists evs,
      trace (final (launch env host port debug w)) = (trace w ++ evs)%list
      /\ (forall js, In (EvEvalJs js) evs ->
            js = "(async () => {return await google.colab.kernel.proxyPort("
                   ++ str (port + 1) ++ ")})()")
      /\ (forall args, In (EvPopen args) evs ->
            nth_error args 3 = Some "--frontend-port"
            /\ nth_error args 4 = Some (str port)
            /\ nth_error args 5 = Some "--backend-port"
            /\ nth_error args 6 = Some (str (port + 1))).
Proof.
  intros env host port debug w.
  destruct (emits_launch env host port debug w) as (evs & H & F).
  exists evs. rewrite Forall_forall in F.
  split; [exact H|]. split.
  - intros js Hin. exact (F _ Hin).
  - intros args Hin. exact (F _ Hin).
Qed.

(** ** Termination *)

Lemma process_method_first_match env name command method w
  pre pid post process :
  Psutil.pids (table w) = (pre ++ pid :: post)%list ->
  Forall (passed_over name command (table w)) pre ->
  Psutil.Process_ (table w) pid = Ok process ->
  matches name command process = Ok true ->
  _process_method env name command method w
  = call_method env process method w.
Proof.
  intros Hp F L Hm. unfold _process_method. rewrite Hp.
  rewrite process_method_loop_skip by exact F.
  exact (process_method_loop_hit _ _ _ _ _ _ _ _ L Hm).
Qed.

Lemma call_method_goes_through env process w :
  Psutil.terminate process = Ok tt ->
  call_method env process m_terminate w
  = Returns tt (signalled env w (Psutil.pid process)).
Proof.
  intros H. unfold call_method, bind, emit, lift, os_update, signalled; simpl.
  rewrite H. reflexivity.
Qed.

(** C1, as the code has it.  With nothing matching either probe
    [terminate] changes nothing and returns.  A probe signals the first
    process that matches it and no other: the outcome of the probe is the
    outcome of that one call, an exception of the call included.
    Altogether [terminate] sends at most two signals.  When a process
    matches the node probe, the first signal of [terminate] goes to the
    first such process and at most one signal follows; once that signal
    has gone through, [terminate] goes on with the server probe on the
    table as the platform left it: it returns at once when nothing matches
    there, and otherwise signals the first match there and nothing else.
    When nothing matches the node probe, the only signal of [terminate]
    goes to the first match of the server probe. *)
Theorem terminate_signals_first_match_of_each_probe :
  forall env (w : World),
    (Forall (passed_over "node" "kangas" (table w)) (Psutil.pids (table w)) ->
     Forall (passed_over "kangas" "server" (table w)) (Psutil.pids (table w)) ->
     terminate env w = Returns tt w)
    /\
    (forall name command pre pid post process,
        Psutil.pids (table w) = (pre ++ pid :: post)%list ->
        Forall (passed_over name command (table w)) pre ->
        Psutil.Process_ (table w) pid = Ok process ->
        matches name command process = Ok true ->
        _process_method env name command m_terminate w
        = match Psutil.terminate process with
          | Ok _ =>
              Returns tt
                (mkWorld (on_terminate env (Psutil.pid process) (table w))
                   (KANGAS_BACKEND_PROXY w)
                   (trace w ++ [EvTerminate (Psutil.pid process)]))
          | Raise e => Raises e (after w (EvTerminate (Psutil.pid process)))
          end)
    /\
    (exists evs,
        trace (final (terminate env w)) = (trace w ++ evs)%list
        /\ Forall is_terminate_ev evs /\ (List.length evs <= 2)%nat)
    /\
    (forall pre pid post process,
        Psutil.pids (table w) = (pre ++ pid :: post)%list ->
        Forall (passed_over "node" "kangas" (table w)) pre ->
        Psutil.Process_ (table w) pid = Ok process ->
        matches "node" "kangas" process = Ok true ->
        (exists rest,
            trace (final (terminate env w))
            = (trace w ++ EvTerminate (Psutil.pid process) :: rest)%list
            /\ Forall is_terminate_ev rest /\ (List.length rest <= 1)%nat)
        /\
        (Psutil.terminate process = Ok tt ->
         (Forall (passed_over "kangas" "server"
                    (table (signalled env w (Psutil.pid process))))
            (Psutil.pids (table (signalled env w (Psutil.pid process)))) ->
          terminate env w
          = Returns tt (signalled env w (Psutil.pid process)))
         /\
         (forall pre' pid' post' process',
             Psutil.pids (table (signalled env w (Psutil.pid process)))
             = (pre' ++ pid' :: post')%list ->
             Forall (passed_over "kangas" "server"
                       (table (signalled env w (Psutil.pid process)))) pre' ->
             Psutil.Process_ (table (signalled env w (Psutil.pid process))) pid'
             = Ok process' ->
             matches "kangas" "server" process' = Ok true ->
             Psutil.terminate process' = Ok tt ->
             terminate env w
             = Returns tt
                 (signalled env (signalled env w (Psutil.pid process))
                    (Psutil.pid process')))))
    /\
    (Forall (passed_over "node" "kangas" (table w)) (Psutil.pids (table w)) ->
     forall pre pid post process,
       Psutil.pids (table w) = (pre ++ pid :: post)%list ->
       Forall (passed_over "kangas" "server" (table w)) pre ->
       Psutil.Process_ (table w) pid = Ok process ->
       matches "kangas" "server" process = Ok true ->
       Psutil.terminate process = Ok tt ->
       terminate env w = Returns tt (signalled env w (Psutil.pid process))).
Proof.
  intros env w. split; [|split; [|split; [|split]]].
  - intros H1 H2. unfold terminate, bind, _process_method.
    rewrite process_method_loop_none by exact H1.
    apply process_method_loop_none. exact H2.
  - intros name command pre pid post process Hp Hpre Hl Hm.
    rewrite (process_method_first_match _ _ _ _ _ _ _ _ _ Hp Hpre Hl Hm).
    unfold call_method, bind, emit, lift, os_update, after; simpl.
    destruct (Psutil.terminate process) as [[]|e]; reflexivity.
  - apply terminate_trace.
  - intros pre pid post process Hp Hpre Hl Hm.
    assert (E : _process_method env "node" "kangas" m_terminate w
                = call_method env process m_terminate w)
      by exact (process_method_first_match _ _ _ _ _ _ _ _ _ Hp Hpre Hl Hm).
    split.
    + unfold terminate, bind. rewrite E.
      pose proof (call_method_trace env process m_terminate w) as T.
      destruct (call_method env process m_terminate w) as [[] w1|e w1];
        simpl in T.
      * destruct (process_method_loop_trace env "kangas" "server"
                    m_terminate (Psutil.pids (table w1)) w1)
          as (rest & H2 & F2 & L2).
        exists rest. unfold _process_method.
        rewrite H2, T, <- app_assoc. auto.
      * exists []. simpl. auto.
    + intros Hok. unfold terminate, bind. rewrite E.
      rewrite (call_method_goes_through _ _ _ Hok). split.
      * intros Hnone. unfold _process_method.
        apply process_method_loop_none. exact Hnone.
      * intros pre' pid' post' process' Hp' Hpre' Hl' Hm' Hok'.
        rewrite (process_method_first_match _ _ _ _ _ _ _ _ _
                   Hp' Hpre' Hl' Hm').
        apply call_method_goes_through. exact Hok'.
  - intros Hnone pre pid post process Hp Hpre Hl Hm Hok.
    unfold terminate, bind. unfold _process_method at 1.
    rewrite process_method_loop_none by exact Hnone.
    rewrite (process_method_first_match _ _ _ _ _ _ _ _ _ Hp Hpre Hl Hm).
    apply call_method_goes_through. exact Hok.
Qed.

(** ** The presenter *)

Lemma show_after_launch env datagrid host port debug height width w url w1 :
  launch env host port debug w = Returns url w1 ->
  show env datagrid host port debug height width w
  = Returns tt
      (after w1
         (if _in_colab_environment env then
            EvDisplayJavascript (colab_script port width height (query_of datagrid))
          else if _in_jupyter_environment env then
            EvDisplayIFrame
              (if truthy datagrid then url ++ query_of datagrid else url)
              width height
          else
            EvBrowserOpen
              (if truthy datagrid then url ++ query_of datagrid else url)
              true)).
Proof.
  intros H. unfold show, bind. rewrite H.
  destruct (_in_colab_environment env); [reflexivity|].
  destruct (_in_jupyter_environment env); reflexivity.
Qed.

(** C3, as the code has it.  In the cloud notebook [show] displays one
    script; the frame it creates is pointed at the proxied URL of the
    frontend port, the port [show] was given, followed by the query
    string, and is sized [width] by [height]. *)
Theorem show_in_colab_frames_proxied_frontend_port :
  forall env datagrid host port debug height width w url w1,
    _in_colab_environment env = true ->
    launch env host port debug w = Returns url w1 ->
    exists script,
      show env datagrid host port debug height width w
      = Returns tt (after w1 (EvDisplayJavascript script))
      /\ contains
           ("fm.src = (await google.colab.kernel.proxyPort(" ++ str port
              ++ ")) + '" ++ query_of datagrid ++ "';") script = true
      /\ requests_proxy_for script port = true
      /\ contains ("fm.width = '" ++ width ++ "';") script = true
      /\ contains ("fm.height = '" ++ height ++ "';") script = true.
Proof.
  intros env datagrid host port debug height width w url w1 Hc Hl.
  exists (colab_script port width height (query_of datagrid)).
  rewrite (show_after_launch _ datagrid _ _ _ height width _ _ _ Hl), Hc.
  split; [reflexivity|].
  unfold requests_proxy_for, colab_script.
  set (q := query_of datagrid). set (p := str port).
  repeat split.
  - apply (contains_split _ _
             (nl ++ "(async ()=>{" ++ nl
              ++ "    fm = document.createElement('iframe');" ++ nl
              ++ "    ")
             (nl ++ "    fm.width = '" ++ width ++ "';" ++ nl
              ++ "    fm.height = '" ++ height ++ "';" ++ nl
              ++ "    fm.frameBorder = 0;" ++ nl
              ++ "    document.body.append(fm);" ++ nl
              ++ "})();" ++ nl)).
    rewrite !append_assoc. reflexivity.
  - apply (contains_split _ _
             (nl ++ "(async ()=>{" ++ nl
              ++ "    fm = document.createElement('iframe');" ++ nl
              ++ "    fm.src = (await google.colab.kernel.")
             (") + '" ++ q ++ "';" ++ nl
              ++ "    fm.width = '" ++ width ++ "';" ++ nl
              ++ "    fm.height = '" ++ height ++ "';" ++ nl
              ++ "    fm.frameBorder = 0;" ++ nl
              ++ "    document.body.append(fm);" ++ nl
              ++ "})();" ++ nl)).
    rewrite !append_assoc. reflexivity.
  - apply (contains_split _ _
             (nl ++ "(async ()=>{" ++ nl
              ++ "    fm = document.createElement('iframe');" ++ nl
              ++ "    fm.src = (await google.colab.kernel.proxyPort(" ++ p
              ++ ")) + '" ++ q ++ "';" ++ nl ++ "    ")
             (nl ++ "    fm.height = '" ++ height ++ "';" ++ nl
              ++ "    fm.frameBorder = 0;" ++ nl
              ++ "    document.body.append(fm);" ++ nl
              ++ "})();" ++ nl)).
    rewrite !append_assoc. reflexivity.
  - apply (contains_split _ _
             (nl ++ "(async ()=>{" ++ nl
              ++ "    fm = document.createElement('iframe');" ++ nl
              ++ "    fm.src = (await google.colab.kernel.proxyPort(" ++ p
              ++ ")) + '" ++ q ++ "';" ++ nl
              ++ "    fm.width = '" ++ width ++ "';" ++ nl ++ "    ")
             (nl ++ "    fm.frameBorder = 0;" ++ nl
              ++ "    document.body.append(fm);" ++ nl
              ++ "})();" ++ nl)).
    rewrite !append_assoc. reflexivity.
Qed.

(** C8. Once [launch] has returned, [show] presents through exactly one
    channel: the script of the cloud notebook when the cloud marker is
    set, whatever the notebook marker says; the frame of the managed
    notebook when only the notebook marker is set; the browser otherwise. *)
Theorem show_dispatches_to_exactly_one_context :
  forall env datagrid host port debug height width w url w1,
    launch env host port debug w = Returns url w1 ->
    exists ev c,
      show env datagrid host port debug height width w
      = Returns tt (after w1 ev)
      /\ channel ev = Some c
      /\ (c = CloudNotebook <-> _in_colab_environment env = true)
      /\ (c = ManagedNotebook <->
          _in_colab_environment env = false
          /\ _in_jupyter_environment env = true)
      /\ (c = PlainHost <->
          _in_colab_environment env = false
          /\ _in_jupyter_environment env = false).
Proof.
  intros env datagrid host port debug height width w url w1 Hl.
  rewrite (show_after_launch _ datagrid _ _ _ height width _ _ _ Hl).
  destruct (_in_colab_environment env), (_in_jupyter_environment env);
    eexists; eexists; (split; [reflexivity|]); simpl;
    (split; [reflexivity|]);
    repeat split; intros; try discriminate; try tauto;
    match goal with
    | H : _ /\ _ |- _ => destruct H; discriminate
    end.
Qed.

(** C9. For host [localhost] and port 4000 the URL that [launch] returns
    is [http://localhost:4000/]; for the datagrid [./example.dg] the query
    string is [?datagrid=.%2Fexample.dg], and the URL handed to the frame
    or the browser is [http://localhost:4000/?datagrid=.%2Fexample.dg]. *)
Theorem localhost_4000_urls :
  forall env debug height width w url w1,
    launch env (Some "localhost") 4000 debug w = Returns url w1 ->
    url = "http://localhost:4000/"
    /\ query_of (Some "./example.dg") = "?datagrid=.%2Fexample.dg"
    /\ show env (Some "./example.dg") (Some "localhost") 4000 debug
         height width w
       = Returns tt
           (after w1
              (if _in_colab_environment env then
                 EvDisplayJavascript
                   (colab_script 4000 width height "?datagrid=.%2Fexample.dg")
               else if _in_jupyter_environment env then
                 EvDisplayIFrame
                   "http://localhost:4000/?datagrid=.%2Fexample.dg"
                   width height
               else
                 EvBrowserOpen
                   "http://localhost:4000/?datagrid=.%2Fexample.dg" true)).
Proof.
  intros env debug height width w url w1 Hl.
  assert (Hu : url = "http://localhost:4000/").
  { rewrite (launch_returns_url _ _ _ _ _ _ _ Hl). reflexivity. }
  split; [exact Hu|]. split; [reflexivity|].
  rewrite (show_after_launch _ (Some "./example.dg") _ _ _ height width
             _ _ _ Hl).
  rewrite Hu. reflexivity.
Qed.

(** ** The theorems at work on sample tables *)

Lemma is_running_false_witness :
  _is_running "node" "kangas" (world_of other_node_table) = Ok false
  /\ _is_running "node" "kangas" (world_of zombie_only) = Ok false.
Proof.
  split.
  - apply (proj1 (is_running_false_without_substring_or_when_zombie
                    "node" "kangas" (world_of other_node_table))).
    intros pid process Hin E. simpl in Hin.
    destruct Hin as [<-|[<-|[]]]; vm_compute in E; inversion E; subst.
    + exists "init". split; [reflexivity|]. intros D; discriminate D.
    + exists "node". split; [reflexivity|]. intros _.
      exists ["node"; "app.js"]. split; reflexivity.
  - apply (proj2 (is_running_false_without_substring_or_when_zombie
                    "node" "kangas" (world_of zombie_only))
             [1] 7 [] (zombie 7 "node" ["node"; "/opt/kangas/server.js"]));
      [reflexivity | passed | reflexivity | reflexivity |].
    right; split; reflexivity.
Defined.

Lemma is_running_first_match_witness :
  matches "node" "kangas" (live 9 "node" ["node"; "kangas"]) = Ok true
  /\ alive (live 9 "node" ["node"; "kangas"]) = Ok true
  /\ In 9 (Psutil.pids zombie_first)
  /\ _is_running "node" "kangas" (world_of zombie_first) = Ok false.
Proof.
  split; [reflexivity|]. split; [reflexivity|].
  split; [simpl; tauto|].
  apply (proj2 (proj2 (is_running_decided_by_first_match
                         "node" "kangas" (world_of zombie_first)
                         [1] 7 [9]
                         (zombie 7 "node" ["node"; "/opt/kangas/server.js"])
                         eq_refl ltac:(passed) eq_refl eq_refl)));
    reflexivity.
Defined.

Lemma launch_when_running_witness :
  _is_running "node" "kangas" (world_of running_table) = Ok true
  /\ launch (platform false false) (Some "localhost") 4000 false
       (world_of running_table)
     = Returns "http://localhost:4000/" (world_of running_table)
  /\ exists w1,
       launch spawning_platform (Some "localhost") 4000 false
         (world_of quiet_table)
       = Returns "http://localhost:4000/" w1
       /\ launch spawning_platform (Some "localhost") 4000 false w1
          = Returns "http://localhost:4000/" w1.
Proof.
  split; [reflexivity|]. split.
  - exact (proj1 (launch_when_running_only_returns_url
                    (platform false false) (Some "localhost") 4000 false
                    (world_of running_table) eq_refl)).
  - eexists. split; [reflexivity|].
    refine (proj1 (launch_when_running_only_returns_url
                     spawning_platform (Some "localhost") 4000 false
                     _ _)).
    reflexivity.
Defined.

Lemma launch_terminates_before_spawning_witness :
  _is_running "node" "kangas" (world_of zombie_first) = Ok false
  /\ exists cleanup rest,
       trace (final (terminate (platform false false) (world_of zombie_first)))
       = cleanup
       /\ trace (final (launch (platform false false) (Some "localhost") 4000
                          false (world_of zombie_first)))
          = (cleanup ++ rest)%list
       /\ Forall is_terminate_ev cleanup
       /\ exists args, In (EvPopen args) rest.
Proof.
  split; [reflexivity|].
  destruct (launch_terminates_before_spawning
              (platform false false) (Some "localhost") 4000 false
              (world_of zombie_first) eq_refl)
    as (cleanup & rest & H1 & H2 & H3 & _ & _ & H6).
  exists cleanup, rest.
  split; [exact H1|]. split; [exact H2|]. split; [exact H3|].
  exact (H6 _ _ eq_refl).
Defined.

Lemma terminate_first_match_witness :
  terminate (platform false false) (world_of quiet_table)
  = Returns tt (world_of quiet_table)
  /\ _process_method (platform false false) "node" "kangas" m_terminate
       (world_of two_nodes)
     = Returns tt
         (mkWorld [init_entry; node_entry'; server_entry] None [EvTerminate 7])
  /\ terminate (platform false false) (world_of two_nodes)
     = Returns tt
         (mkWorld [init_entry; node_entry'] None
            [EvTerminate 7; EvTerminate 11])
  /\ terminate (platform false false) (world_of [init_entry; server_entry])
     = Returns tt (mkWorld [init_entry] None [EvTerminate 11]).
Proof.
  split; [|split; [|split]].
  - apply (proj1 (terminate_signals_first_match_of_each_probe
                    (platform false false) (world_of quiet_table)));
      passed.
  - exact (proj1 (proj2 (terminate_signals_first_match_of_each_probe
                           (platform false false) (world_of two_nodes)))
             "node" "kangas" [1] 7 [9; 11]
             (live 7 "node" ["node"; "/opt/kangas/server.js"])
             eq_refl ltac:(passed) eq_refl eq_refl).
  - refine (proj2 (proj2 (proj1 (proj2 (proj2 (proj2
              (terminate_signals_first_match_of_each_probe
                 (platform false false) (world_of two_nodes)))))
              [1] 7 [9; 11]
              (live 7 "node" ["node"; "/opt/kangas/server.js"])
              eq_refl _ eq_refl eq_refl) eq_refl)
              [1; 9] 11 []
              (live 11 "kangas"
                 ["kangas"; "server"; "--frontend-port"; "4000"])
              eq_refl _ eq_refl eq_refl eq_refl);
      passed.
  - refine (proj2 (proj2 (proj2 (proj2
              (terminate_signals_first_match_of_each_probe
                 (platform false false)
                 (world_of [init_entry; server_entry])))))
              _ [1] 11 []
              (live 11 "kangas"
                 ["kangas"; "server"; "--frontend-port"; "4000"])
              eq_refl _ eq_refl eq_refl eq_refl);
      passed.
Defined.

Lemma show_in_colab_witness :
  _in_colab_environment (platform true false) = true
  /\ exists script w1,
       show (platform true false) (Some "./example.dg") (Some "localhost")
         4000 false "750px" "100%" (world_of quiet_table)
       = Returns tt (after w1 (EvDisplayJavascript script))
       /\ requests_proxy_for script 4000 = true.
Proof.
  split; [reflexivity|].
  destruct (show_in_colab_frames_proxied_frontend_port
              (platform true false) (Some "./example.dg") (Some "localhost")
              4000 false "750px" "100%" (world_of quiet_table)
              _ _ eq_refl eq_refl)
    as (script & Hs & _ & Hr & _).
  exists script. eexists. split; [exact Hs | exact Hr].
Defined.

Lemma show_dispatch_witness :
  _in_colab_environment (platform true true) = true
  /\ _in_jupyter_environment (platform true true) = true
  /\ exists ev w1,
       show (platform true true) None (Some "localhost") 4000 false
         "750px" "100%" (world_of running_table)
       = Returns tt (after w1 ev)
       /\ channel ev = Some CloudNotebook.
Proof.
  split; [reflexivity|]. split; [reflexivity|].
  destruct (show_dispatches_to_exactly_one_context
              (platform true true) None (Some "localhost") 4000 false
              "750px" "100%" (world_of running_table) _ _ eq_refl)
    as (ev & c & Hs & Hc & Hcloud & _).
  exists ev. eexists. split; [exact Hs|].
  rewrite Hc. f_equal. apply Hcloud. reflexivity.
Defined.

Lemma localhost_4000_witness :
  launch (platform false true) (Some "localhost") 4000 false
    (world_of quiet_table)
  = Returns "http://localhost:4000/"
      (mkWorld quiet_table None
         [EvPopen ["/usr/bin/python3"; "-m"; "kangas.cli.server";
                   "--frontend-port"; "4000"; "--backend-port"; "4001";
                   "--open"; "no"; "--host"; "localhost"];
          EvSleep 2])
  /\ trace (final (show (platform false true) (Some "./example.dg")
                     (Some "localhost") 4000 false "750px" "100%"
                     (world_of quiet_table)))
     = [EvPopen ["/usr/bin/python3"; "-m"; "kangas.cli.server";
                 "--frontend-port"; "4000"; "--backend-port"; "4001";
                 "--open"; "no"; "--host"; "localhost"];
        EvSleep 2;
        EvDisplayIFrame "http://localhost:4000/?datagrid=.%2Fexample.dg"
          "100%" "750px"].
Proof.
  split; [reflexivity|].
  rewrite (proj2 (proj2 (localhost_4000_urls
                           (platform false true) false "750px" "100%"
                           (world_of quiet_table) _ _ eq_refl))).
  reflexivity.
Defined.

(** ** Where the code departs from a claim *)

(** C1.  Two live processes match the first probe: only the first one is
    signalled.  And a process that refuses the signal makes [terminate]
    raise, before the second probe is tried. *)
Lemma terminate_spares_later_match_and_raises :
  (matches "node" "kangas" (live 9 "node" ["node"; "kangas"]) = Ok true
   /\ alive (live 9 "node" ["node"; "kangas"]) = Ok true
   /\ Psutil.Process_ two_nodes 9 = Ok (live 9 "node" ["node"; "kangas"])
   /\ trace (final (terminate (platform false false) (world_of two_nodes)))
      = [EvTerminate 7; EvTerminate 11]
   /\ ~ In (EvTerminate 9)
        (trace (final (terminate (platform false false) (world_of two_nodes)))))
  /\ terminate (platform false false) (world_of stubborn_table)
     = Raises AccessDenied (mkWorld stubborn_table None [EvTerminate 7]).
Proof.
  split; [|reflexivity].
  repeat split.
  intros [H|[H|[]]]; discriminate H.
Qed.

(** C3.  For frontend port 4000 the script that [show] displays in the
    cloud notebook asks the proxy for port 4000, not for the backend port
    4001. *)
Lemma colab_frame_asks_for_frontend_port :
  exists script,
    trace (final (show (platform true false) (Some "./example.dg")
                    (Some "localhost") 4000 false "750px" "100%"
                    (world_of running_table)))
    = [EvDisplayJavascript script]
    /\ requests_proxy_for script (4000 + 1) = false
    /\ requests_proxy_for script 4000 = true.
Proof. eexists. repeat split. Qed.

(** ** More on the scan *)

Lemma matches_true_inv name command process :
  matches name command process = Ok true ->
  exists n argv,
    Psutil.name process = Ok n /\ startswith n name = true
    /\ Psutil.cmdline process = Ok argv
    /\ contains command (join " " argv) = true.
Proof.
  unfold matches. destruct (Psutil.name process) as [n|e]; simpl; [|discriminate].
  destruct (startswith n name) eqn:S; [|discriminate].
  destruct (Psutil.cmdline process) as [argv|e]; simpl; [|discriminate].
  intros H. exists n, argv. repeat split; congruence.
Qed.

Lemma alive_true_inv process :
  alive process = Ok true ->
  Psutil.is_running process = Ok true
  /\ exists s, Psutil.status process = Ok s /\ s <> Psutil.STATUS_ZOMBIE.
Proof.
  unfold alive. destruct (Psutil.is_running process) as [[|]|e]; simpl;
    try discriminate.
  destruct (Psutil.status process) as [s|e]; simpl; [|discriminate].
  intros H. split; [reflexivity|]. exists s. split; [reflexivity|].
  intros ->. discriminate.
Qed.

(** X1. A pid whose [psutil.Process(pid)] raises is skipped by both scans:
    the scan goes on as if the pid had not been enumerated. *)
Theorem scans_skip_failed_lookup :
  forall env name command method (w : World) pre pid post e,
    Psutil.Process_ (table w) pid = Raise e ->
    _is_running_loop (table w) name command (pre ++ pid :: post)%list
    = _is_running_loop (table w) name command (pre ++ post)%list
    /\ _process_method_loop env name command method (pre ++ pid :: post)%list w
       = _process_method_loop env name command method (pre ++ post)%list w.
Proof.
  intros env name command method w pre pid post e H. split.
  - induction pre as [|q pre IH]; simpl.
    + rewrite H. reflexivity.
    + rewrite IH. reflexivity.
  - induction pre as [|q pre IH]; simpl.
    + rewrite H. reflexivity.
    + rewrite IH. reflexivity.
Qed.

(** X2. When the first process that is not passed over cannot be read (its
    [name()], or its [cmdline()] after a name with the prefix, raises),
    both scans raise that exception; [_process_method] has then signalled
    nothing and changed nothing. *)
Theorem scans_raise_at_first_unreadable :
  forall env name command method (w : World) pre pid post process e,
    Psutil.pids (table w) = (pre ++ pid :: post)%list ->
    Forall (passed_over name command (table w)) pre ->
    Psutil.Process_ (table w) pid = Ok process ->
    (Psutil.name process = Raise e
     \/ exists n, Psutil.name process = Ok n /\ startswith n name = true
                  /\ Psutil.cmdline process = Raise e) ->
    _is_running name command w = Raise e
    /\ _process_method env name command method w = Raises e w.
Proof.
  intros env name command method w pre pid post process e Hp F L Hr.
  assert (Hm : matches name command process = Raise e).
  { unfold matches. destruct Hr as [Hn | (n & Hn & Hs & Hc)]; rewrite Hn; simpl.
    - reflexivity.
    - rewrite Hs, Hc. reflexivity. }
  unfold _is_running, _process_method. rewrite Hp.
  rewrite is_running_loop_skip, process_method_loop_skip by exact F.
  simpl. rewrite L, Hm. split; reflexivity.
Qed.

(** X3. [cmdline()] is read only after the name test: a process whose name
    lacks the prefix is passed over by both scans whatever its
    [cmdline()], [is_running()] and [status()] would answer or raise. *)
Theorem scans_pass_over_other_names :
  forall env name command method (w : World) pid rest process n,
    Psutil.Process_ (table w) pid = Ok process ->
    Psutil.name process = Ok n ->
    startswith n name = false ->
    _is_running_loop (table w) name command (pid :: rest)
    = _is_running_loop (table w) name command rest
    /\ _process_method_loop env name command method (pid :: rest) w
       = _process_method_loop env name command method rest w.
Proof.
  intros env name command method w pid rest process n L Hn Hs.
  assert (Hm : matches name command process = Ok false).
  { unfold matches. rewrite Hn; simpl. rewrite Hs. reflexivity. }
  simpl. rewrite L, Hm. split; reflexivity.
Qed.

(** X4. [_is_running] answers true only when there is a process, first
    among those not passed over, whose name has the prefix, whose joined
    command line contains the substring, whose [is_running()] is true and
    whose status is not the zombie status. *)
Theorem is_running_true_means_live_match :
  forall name command (w : World),
    _is_running name command w = Ok true ->
    exists pre pid post process n argv s,
      Psutil.pids (table w) = (pre ++ pid :: post)%list
      /\ Forall (passed_over name command (table w)) pre
      /\ Psutil.Process_ (table w) pid = Ok process
      /\ Psutil.name process = Ok n /\ startswith n name = true
      /\ Psutil.cmdline process = Ok argv
      /\ contains command (join " " argv) = true
      /\ Psutil.is_running process = Ok true
      /\ Psutil.status process = Ok s /\ s <> Psutil.STATUS_ZOMBIE.
Proof.
  intros name command w H.
  destruct (is_running_true_first_match _ _ _ _ H)
    as (pre & pid & post & process & Hp & F & L & Hm).
  assert (Ha : alive process = Ok true).
  { unfold _is_running in H. rewrite Hp in H.
    rewrite is_running_loop_skip in H by exact F.
    rewrite (is_running_loop_hit _ _ _ _ _ _ L Hm) in H. exact H. }
  destruct (matches_true_inv _ _ _ Hm) as (n & argv & Hn & Hs & Hc & Hk).
  destruct (alive_true_inv _ Ha) as (Hr & s & Hst & Hz).
  exists pre, pid, post, process, n, argv, s. repeat split; assumption.
Qed.

(** X5. The two probes of [terminate] never select the same process: a
    process that passes the test for ("node", "kangas") fails the test for
    ("kangas", "server"). *)
Theorem terminate_probes_are_disjoint :
  forall process,
    matches "node" "kangas" process = Ok true ->
    matches "kangas" "server" process = Ok false.
Proof.
  intros process H.
  destruct (matches_true_inv _ _ _ H) as (n & argv & Hn & Hs & _).
  unfold matches. rewrite Hn; simpl.
  destruct n as [|c n]; [discriminate Hs|].
  unfold startswith in *.
  change (String.prefix "node" (String c n))
    with (if ascii_dec "n" c then String.prefix "ode" n else false) in Hs.
  change (String.prefix "kangas" (String c n))
    with (if ascii_dec "k" c then String.prefix "angas" n else false).
  destruct (ascii_dec "n" c) as [<-|]; [|discriminate Hs].
  destruct (ascii_dec "k" "n") as [D|_]; [discriminate D | reflexivity].
Qed.

(** ** More on termination and launch *)

Lemma process_method_loop_keeps_global env name command method pids w :
  KANGAS_BACKEND_PROXY
    (final (_process_method_loop env name command method pids w))
  = KANGAS_BACKEND_PROXY w.
Proof.
  induction pids as [|pid rest IH]; simpl; [reflexivity|].
  destruct (Psutil.Process_ (table w) pid) as [process|e]; [|exact IH].
  destruct (matches name command process) as [[|]|e]; simpl;
    [|exact IH|reflexivity].
  destruct method. unfold call_method, bind, emit, lift, os_update; simpl.
  destruct (Psutil.terminate process); reflexivity.
Qed.

Lemma terminate_keeps_global env w :
  KANGAS_BACKEND_PROXY (final (terminate env w)) = KANGAS_BACKEND_PROXY w.
Proof.
  unfold terminate, bind, _process_method.
  pose proof (process_method_loop_keeps_global env "node" "kangas"
                m_terminate (Psutil.pids (table w)) w) as H1.
  destruct (_process_method_loop env "node" "kangas" m_terminate
              (Psutil.pids (table w)) w) as [[] w1|e w1]; simpl in H1.
  - rewrite process_method_loop_keeps_global. exact H1.
  - exact H1.
Qed.

(** What [launch] does once the check has answered false and the cleanup
    has returned. *)
Lemma launch_after_cleanup env host port debug w w1 :
  _is_running "node" "kangas" w = Ok false ->
  terminate env w = Returns tt w1 ->
  launch env host port debug w
  = if _in_colab_environment env then
      match eval_js env (proxy_js (port + 1)) with
      | Raise e => Raises e (after w1 (EvEvalJs (proxy_js (port + 1))))
      | Ok v =>
          let args := spawn_args env (resolve_host env host) port debug v in
          match Popen env args with
          | Raise e =>
              Raises e
                (mkWorld (table w1) v
                   (trace w1 ++ [EvEvalJs (proxy_js (port + 1)); EvPopen args]))
          | Ok _ =>
              Returns (frontend_url (resolve_host env host) port)
                (mkWorld (on_spawn env args (table w1)) v
                   (trace w1 ++ [EvEvalJs (proxy_js (port + 1));
                                 EvPopen args; EvSleep 2]))
          end
      end
    else
      let args := spawn_args env (resolve_host env host) port debug
                    (KANGAS_BACKEND_PROXY w1) in
      match Popen env args with
      | Raise e => Raises e (after w1 (EvPopen args))
      | Ok _ =>
          Returns (frontend_url (resolve_host env host) port)
            (mkWorld (on_spawn env args (table w1)) (KANGAS_BACKEND_PROXY w1)
               (trace w1 ++ [EvPopen args; EvSleep 2]))
      end.
Proof.
  intros H T. unfold launch, bind, lift. rewrite H. cbn [negb]. rewrite T.
  unfold output_eval_js, subprocess_Popen, time_sleep, set_global,
    get_global, os_update, emit, lift, bind, ret, after.
  destruct (_in_colab_environment env); simpl.
  - destruct (eval_js env (proxy_js (port + 1))) as [v|e]; simpl;
      [|reflexivity].
    destruct (Popen env _) as [[]|e]; simpl; rewrite <- !app_assoc;
      reflexivity.
  - destruct (Popen env _) as [[]|e]; simpl; rewrite <- ?app_assoc;
      reflexivity.
Qed.

Lemma launch_cleanup_fails env host port debug w e w1 :
  _is_running "node" "kangas" w = Ok false ->
  terminate env w = Raises e w1 ->
  launch env host port debug w = Raises e w1.
Proof.
  intros H T. unfold launch, bind, lift. rewrite H. cbn [negb]. rewrite T.
  reflexivity.
Qed.

Lemma no_spawn_in_signals evs :
  Forall is_terminate_ev evs ->
  filter is_popen_b evs = [] /\ filter is_sleep_b evs = [].
Proof.
  induction 1 as [|e evs He _ [IH1 IH2]]; simpl; [auto|].
  destruct e; simpl in He; try contradiction. auto.
Qed.

Lemma spawn_args_command env host port debug proxy :
  server_command env host debug (spawn_args env host port debug proxy).
Proof.
  unfold server_command, spawn_args.
  do 5 (split; [reflexivity|]). split.
  - intros h ->. split; reflexivity.
  - intros ->. eexists. rewrite !app_assoc. reflexivity.
Qed.

Lemma spawn_args_proxy env host port debug p :
  exists front back,
    spawn_args env host port debug (Some p)
    = (front ++ "--backend-proxy" :: p :: back)%list.
Proof.
  unfold spawn_args. eexists. eexists. rewrite app_assoc. reflexivity.
Qed.

Lemma emits_launch_general (P : Event -> Prop) env host port debug :
  (forall pid, P (EvTerminate pid)) ->
  P (EvEvalJs (proxy_js (port + 1))) ->
  (forall proxy,
      P (EvPopen (spawn_args env (resolve_host env host) port debug proxy))) ->
  P (EvSleep 2) ->
  emits P (launch env host port debug).
Proof.
  intros Pt Pj Pp Ps. unfold launch. apply emits_bind.
  - apply emits_silent. intros w; unfold lift.
    destruct (_is_running "node" "kangas" w); reflexivity.
  - intros running. apply emits_bind; [|intros; apply emits_ret].
    destruct running; simpl; [apply emits_ret|].
    apply emits_bind.
    { eapply emits_weaken; [|apply emits_terminate].
      intros e H; destruct e; simpl in H; try contradiction. apply Pt. }
    intros _. apply emits_bind.
    { destruct (_in_colab_environment env); [|apply emits_ret].
      apply emits_bind.
      - unfold output_eval_js. apply emits_bind.
        + apply emits_emit. exact Pj.
        + intros; apply emits_lift.
      - intros v. apply emits_silent. reflexivity. }
    intros _. apply emits_bind; [apply emits_silent; reflexivity|].
    intros proxy. apply emits_bind.
    { unfold subprocess_Popen. apply emits_bind.
      - apply emits_emit, Pp.
      - intros _. apply emits_bind; [apply emits_lift|].
        intros _. apply emits_silent. reflexivity. }
    intros _. apply emits_emit. exact Ps.
Qed.

(** X6. In [terminate] the probe for the node server comes first.  When
    its process refuses the signal, [terminate] raises at once: the probe
    for the kangas server is not run.  When the signal goes through, the
    second probe enumerates afresh, on the table as the first signal left
    it. *)
Theorem terminate_runs_probes_in_order :
  forall env (w : World) pre pid post process,
    Psutil.pids (table w) = (pre ++ pid :: post)%list ->
    Forall (passed_over "node" "kangas" (table w)) pre ->
    Psutil.Process_ (table w) pid = Ok process ->
    matches "node" "kangas" process = Ok true ->
    (forall e, Psutil.terminate process = Raise e ->
       terminate env w = Raises e (after w (EvTerminate (Psutil.pid process))))
    /\ (Psutil.terminate process = Ok tt ->
        terminate env w
        = _process_method env "kangas" "server" m_terminate
            (mkWorld (on_terminate env (Psutil.pid process) (table w))
               (KANGAS_BACKEND_PROXY w)
               (trace w ++ [EvTerminate (Psutil.pid process)]))).
Proof.
  intros env w pre pid post process Hp F L Hm.
  assert (E : _process_method env "node" "kangas" m_terminate w
              = call_method env process m_terminate w).
  { unfold _process_method. rewrite Hp.
    rewrite process_method_loop_skip by exact F.
    exact (process_method_loop_hit _ _ _ _ _ _ _ _ L Hm). }
  split.
  - intros e He. unfold terminate, bind. rewrite E.
    unfold call_method, bind, emit, lift, os_update, after; simpl.
    rewrite He. reflexivity.
  - intros He. unfold terminate, bind. rewrite E.
    unfold call_method, bind, emit, lift, os_update; simpl.
    rewrite He. reflexivity.
Qed.

(** X7. When the running check raises, [launch] raises the same exception
    and has done nothing: no signal, no proxy request, no spawn, no sleep;
    [show] raises it too and displays nothing. *)
Theorem launch_and_show_abort_when_scan_raises :
  forall env datagrid host port debug height width (w : World) e,
    _is_running "node" "kangas" w = Raise e ->
    launch env host port debug w = Raises e w
    /\ show env datagrid host port debug height width w = Raises e w.
Proof.
  intros env datagrid host port debug height width w e H.
  assert (E : launch env host port debug w = Raises e w).
  { unfold launch, bind, lift. rewrite H. reflexivity. }
  split; [exact E|]. unfold show, bind. rewrite E. reflexivity.
Qed.

(** X8. A call of [launch] spawns at most one child and sleeps at most
    once, never without having spawned; a call that raises has not slept;
    a call that returns after a false check ends with one spawn followed
    by the two-second sleep. *)
Theorem launch_spawns_at_most_once :
  forall env host port debug (w : World),
    exists evs,
      trace (final (launch env host port debug w)) = (trace w ++ evs)%list
      /\ (List.length (filter is_popen_b evs) <= 1)%nat
      /\ (List.length (filter is_sleep_b evs)
          <= List.length (filter is_popen_b evs))%nat
      /\ (forall e w', launch env host port debug w = Raises e w' ->
            filter is_sleep_b evs = [])
      /\ (forall u w', launch env host port debug w = Returns u w' ->
            _is_running "node" "kangas" w = Ok false ->
            exists front args,
              evs = (front ++ [EvPopen args; EvSleep 2])%list
              /\ filter is_popen_b front = []).
Proof.
  intros env host port debug w.
  destruct (_is_running "node" "kangas" w) as [[|]|e] eqn:R.
  - exists []. assert (E : launch env host port debug w
                          = Returns (frontend_url (resolve_host env host) port) w).
    { unfold launch, bind, lift. rewrite R. reflexivity. }
    rewrite E, app_nil_r. simpl. repeat split; auto; discriminate.
  - destruct (terminate_trace env w) as (cleanup & Hc & Fc & _).
    destruct (no_spawn_in_signals _ Fc) as [Np Ns].
    destruct (terminate env w) as [[] w1|e w1] eqn:T; simpl in Hc.
    + rewrite (launch_after_cleanup _ _ _ _ _ _ R T).
      destruct (_in_colab_environment env);
        [destruct (eval_js env (proxy_js (port + 1))) as [v|e]|];
        cbv zeta; try destruct (Popen env _) as [[]|e'];
        simpl; rewrite Hc, <- ?app_assoc;
        eexists; (split; [reflexivity|]);
        rewrite !filter_app, Np, Ns; simpl;
        (split; [lia|]); (split; [lia|]);
        (split; [intros ? ? D; first [discriminate D | reflexivity]|]);
        intros u w' D _; try discriminate D.
      * exists (cleanup ++ [EvEvalJs (proxy_js (port + 1))])%list.
        eexists. rewrite <- app_assoc, filter_app, Np. split; reflexivity.
      * exists cleanup. eexists. split; [reflexivity | exact Np].
    + rewrite (launch_cleanup_fails _ _ _ _ _ _ _ R T). simpl.
      exists cleanup. rewrite Np, Ns. simpl.
      repeat split; auto; intros; discriminate.
  - exists []. assert (E : launch env host port debug w = Raises e w).
    { unfold launch, bind, lift. rewrite R. reflexivity. }
    rewrite E, app_nil_r. simpl. repeat split; auto; intros; discriminate.
Qed.

(** X9. Every spawn of [launch] runs [sys.executable -m kangas.cli.server],
    passes [--open no], passes [--host] with the resolved host when there
    is one, and ends with [--debug] when [debug] is set. *)
Theorem launch_builds_server_command :
  forall env host port debug (w : World),
    exists evs,
      trace (final (launch env host port debug w)) = (trace w ++ evs)%list
      /\ forall args, In (EvPopen args) evs ->
           server_command env (resolve_host env host) debug args.
Proof.
  intros env host port debug w.
  destruct (emits_launch_general
              (fun e => match e with
                        | EvPopen args =>
                            server_command env (resolve_host env host) debug args
                        | _ => True
                        end)
              env host port debug) with (w := w) as (evs & H & F);
    try exact I; try (intros; exact I).
  - intros proxy. apply spawn_args_command.
  - exists evs. split; [exact H|]. rewrite Forall_forall in F.
    intros args Hin. exact (F _ Hin).
Qed.

(** X10. Whenever [launch] returns, on either branch, the URL is
    [http://{h}:{port}/] where [h] is the host argument when it is given
    and the answer of [get_localhost()] otherwise. *)
Theorem launch_url_is_http_host_port :
  forall env host port debug (w : World) url w',
    launch env host port debug w = Returns url w' ->
    (forall h, host = Some h ->
       url = "http://" ++ h ++ ":" ++ str port ++ "/")
    /\ (host = None ->
        url = "http://" ++ fmt_s (get_localhost env) ++ ":" ++ str port ++ "/").
Proof.
  intros env host port debug w url w' H.
  rewrite (launch_returns_url _ _ _ _ _ _ _ H).
  split; [intros h ->; reflexivity | intros ->; reflexivity].
Qed.

Lemma in_after_signals (e : Event) cleanup rest :
  Forall is_terminate_ev cleanup ->
  ~ is_terminate_ev e ->
  In e (cleanup ++ rest)%list -> In e rest.
Proof.
  intros F N Hin. apply in_app_or in Hin. destruct Hin as [Hin|Hin]; [|exact Hin].
  rewrite Forall_forall in F. destruct (N (F _ Hin)).
Qed.

(** X11. Outside the cloud notebook [launch] asks the proxy nothing and
    leaves [KANGAS_BACKEND_PROXY] as it found it; a token left there by an
    earlier call is still passed to the server as [--backend-proxy]. *)
Theorem launch_outside_colab_keeps_proxy_token :
  forall env host port debug (w : World),
    _in_colab_environment env = false ->
    KANGAS_BACKEND_PROXY (final (launch env host port debug w))
    = KANGAS_BACKEND_PROXY w
    /\ exists evs,
         trace (final (launch env host port debug w)) = (trace w ++ evs)%list
         /\ (forall js, ~ In (EvEvalJs js) evs)
         /\ (forall p args,
               KANGAS_BACKEND_PROXY w = Some p ->
               In (EvPopen args) evs ->
               exists front back,
                 args = (front ++ "--backend-proxy" :: p :: back)%list).
Proof.
  intros env host port debug w C.
  destruct (_is_running "node" "kangas" w) as [[|]|e] eqn:R.
  - assert (E : launch env host port debug w
                = Returns (frontend_url (resolve_host env host) port) w).
    { unfold launch, bind, lift. rewrite R. reflexivity. }
    rewrite E. split; [reflexivity|]. exists []. simpl. rewrite app_nil_r.
    repeat split; auto. intros p args _ [].
  - destruct (terminate_trace env w) as (cleanup & Hc & Fc & _).
    pose proof (terminate_keeps_global env w) as G.
    destruct (terminate env w) as [[] w1|e w1] eqn:T; simpl in Hc, G.
    + rewrite (launch_after_cleanup _ _ _ _ _ _ R T), C. cbv zeta.
      destruct (Popen env _) as [[]|e]; simpl; (split; [exact G|]);
        rewrite Hc, <- app_assoc; eexists; (split; [reflexivity|]); split.
      * intros js Hin. apply in_after_signals in Hin; auto.
        simpl in Hin. destruct Hin as [D|[D|[]]]; discriminate D.
      * intros p args Hp Hin. apply in_after_signals in Hin; auto.
        simpl in Hin. destruct Hin as [D|[D|[]]]; [|discriminate D].
        inversion D; subst args. rewrite G, Hp. apply spawn_args_proxy.
      * intros js Hin. apply in_after_signals in Hin; auto.
        simpl in Hin. destruct Hin as [D|[]]; discriminate D.
      * intros p args Hp Hin. apply in_after_signals in Hin; auto.
        simpl in Hin. destruct Hin as [D|[]].
        inversion D; subst args. rewrite G, Hp. apply spawn_args_proxy.
    + rewrite (launch_cleanup_fails _ _ _ _ _ _ _ R T). simpl.
      split; [exact G|]. exists cleanup. split; [exact Hc|].
      rewrite Forall_forall in Fc. split.
      * intros js Hin. exact (Fc _ Hin).
      * intros p args _ Hin. destruct (Fc _ Hin).
  - assert (E : launch env host port debug w = Raises e w).
    { unfold launch, bind, lift. rewrite R. reflexivity. }
    rewrite E. split; [reflexivity|]. exists []. simpl. rewrite app_nil_r.
    repeat split; auto. intros p args _ [].
Qed.

(** X12. In the cloud notebook, after a false check and a cleanup that
    returned: when the proxy request raises, [launch] raises it and spawns
    nothing; when it answers, the answer is stored in
    [KANGAS_BACKEND_PROXY], also when the spawn then fails, and the spawn
    that follows the request carries it as [--backend-proxy]. *)
Theorem launch_in_colab_stores_and_passes_token :
  forall env host port debug (w w1 : World),
    _in_colab_environment env = true ->
    _is_running "node" "kangas" w = Ok false ->
    terminate env w = Returns tt w1 ->
    (forall e, eval_js env (proxy_js (port + 1)) = Raise e ->
       launch env host port debug w
       = Raises e (after w1 (EvEvalJs (proxy_js (port + 1)))))
    /\ (forall v, eval_js env (proxy_js (port + 1)) = Ok v ->
          KANGAS_BACKEND_PROXY (final (launch env host port debug w)) = v
          /\ (exists args tail,
                trace (final (launch env host port debug w))
                = (trace w1 ++ EvEvalJs (proxy_js (port + 1))
                     :: EvPopen args :: tail)%list
                /\ (forall p, v = Some p ->
                      exists front back,
                        args = (front ++ "--backend-proxy" :: p :: back)%list))).
Proof.
  intros env host port debug w w1 C R T.
  rewrite (launch_after_cleanup _ _ _ _ _ _ R T), C. split.
  - intros e He. rewrite He. reflexivity.
  - intros v Hv. rewrite Hv. cbv zeta.
    destruct (Popen env _) as [[]|e]; simpl; (split; [reflexivity|]);
      eexists; eexists; (split; [reflexivity|]);
      intros p ->; apply spawn_args_proxy.
Qed.

(** ** More on the presenter *)

(** X13. [show] is [launch] followed by at most one display: it leaves the
    process table and the proxy token as [launch] left them; when [launch]
    raises it raises the same exception and displays nothing; when
    [launch] returns it adds exactly one event, a display. *)
Theorem show_adds_one_display_after_launch :
  forall env datagrid host port debug height width (w : World),
    table (final (show env datagrid host port debug height width w))
    = table (final (launch env host port debug w))
    /\ KANGAS_BACKEND_PROXY
         (final (show env datagrid host port debug height width w))
       = KANGAS_BACKEND_PROXY (final (launch env host port debug w))
    /\ exists disp,
         trace (final (show env datagrid host port debug height width w))
         = (trace (final (launch env host port debug w)) ++ disp)%list
         /\ (forall e w1, launch env host port debug w = Raises e w1 ->
               disp = []
               /\ show env datagrid host port debug height width w
                  = Raises e w1)
         /\ (forall url w1, launch env host port debug w = Returns url w1 ->
               exists ev, disp = [ev] /\ channel ev <> None).
Proof.
  intros env datagrid host port debug height width w.
  destruct (launch env host port debug w) as [url w1|e w1] eqn:L.
  - rewrite (show_after_launch _ datagrid _ _ _ height width _ _ _ L).
    simpl. split; [reflexivity|]. split; [reflexivity|].
    eexists. split; [reflexivity|]. split; [intros ? ? D; discriminate D|].
    intros u w2 _. eexists. split; [reflexivity|].
    destruct (_in_colab_environment env);
      [|destruct (_in_jupyter_environment env)]; discriminate.
  - assert (E : show env datagrid host port debug height width w
                = Raises e w1).
    { unfold show, bind. rewrite L. reflexivity. }
    rewrite E. simpl. split; [reflexivity|]. split; [reflexivity|].
    exists []. rewrite app_nil_r. split; [reflexivity|]. split.
    + intros e0 w0 D. inversion D; subst. split; reflexivity.
    + intros u w2 D; discriminate D.
Qed.

Lemma list_ascii_of_string_app (a b : string) :
  list_ascii_of_string (a ++ b)
  = (list_ascii_of_string a ++ list_ascii_of_string b)%list.
Proof. induction a as [|c a IH]; simpl; [reflexivity | rewrite IH; reflexivity]. Qed.

Lemma percent_chars (c : ascii) :
  forallb (fun x => always_safe x || Ascii.eqb x "%")
    (list_ascii_of_string (percent c)) = true.
Proof. destruct c as [[] [] [] [] [] [] [] []]; vm_compute; reflexivity. Qed.

Lemma quote_plus_chars (s : string) :
  forall x, In x (list_ascii_of_string (quote_plus s)) ->
    always_safe x = true \/ x = "+"%char \/ x = "%"%char.
Proof.
  induction s as [|c s IH]; simpl; [intros x []|].
  intros x Hin. rewrite list_ascii_of_string_app in Hin.
  apply in_app_or in Hin. destruct Hin as [Hin|Hin]; [|exact (IH x Hin)].
  destruct (always_safe c) eqn:S.
  - simpl in Hin. destruct Hin as [<-|[]]. left; exact S.
  - destruct (Ascii.eqb c " ").
    + simpl in Hin. destruct Hin as [<-|[]]. right; left; reflexivity.
    + pose proof (percent_chars c) as P. rewrite forallb_forall in P.
      specialize (P x Hin). apply orb_true_iff in P. destruct P as [P|P].
      * left; exact P.
      * right; right. apply Ascii.eqb_eq. exact P.
Qed.

(** X14. The query string of [show]: empty when [datagrid] is [None] or
    the empty string; otherwise [?datagrid=] followed by the encoded
    value.  It is made of unreserved characters and of [? = + %] only, so
    it holds no quote, no space and no ampersand. *)
Theorem query_string_is_url_safe :
  forall datagrid,
    (truthy datagrid = false -> query_of datagrid = "")
    /\ (forall d, datagrid = Some d -> d <> "" ->
          query_of datagrid = "?datagrid=" ++ quote_plus d)
    /\ (forall x, In x (list_ascii_of_string (query_of datagrid)) ->
          always_safe x = true \/ x = "?"%char \/ x = "="%char
          \/ x = "+"%char \/ x = "%"%char)
    /\ ~ In "'"%char (list_ascii_of_string (query_of datagrid))
    /\ ~ In " "%char (list_ascii_of_string (query_of datagrid))
    /\ ~ In "&"%char (list_ascii_of_string (query_of datagrid)).
Proof.
  intros datagrid.
  assert (Hshape : forall d, datagrid = Some d -> d <> "" ->
                     query_of datagrid = "?datagrid=" ++ quote_plus d).
  { intros d -> Hd. destruct d; [contradiction|reflexivity]. }
  assert (Hchars : forall x, In x (list_ascii_of_string (query_of datagrid)) ->
            always_safe x = true \/ x = "?"%char \/ x = "="%char
            \/ x = "+"%char \/ x = "%"%char).
  { intros x Hin. destruct datagrid as [[|c d]|]; try (destruct Hin; fail).
    rewrite (Hshape (String c d) eq_refl) in Hin by discriminate.
    cbn [append list_ascii_of_string In] in Hin.
    repeat (destruct Hin as [<-|Hin]; [tauto|]).
    destruct (quote_plus_chars _ _ Hin) as [H|[H|H]]; tauto. }
  split; [destruct datagrid as [[|c d]|]; simpl; intros H;
          first [reflexivity | discriminate H]|].
  split; [exact Hshape|]. split; [exact Hchars|].
  repeat split; intros Hin; destruct (Hchars _ Hin) as [H|[H|[H|[H|H]]]];
    discriminate H.
Qed.

(** ** The further theorems at work on sample tables *)

Lemma scans_skip_failed_lookup_witness :
  Psutil.Process_ vanished_table 3 = Raise NoSuchProcess
  /\ _is_running_loop vanished_table "node" "kangas" [3; 9]
     = _is_running_loop vanished_table "node" "kangas" [9]
  /\ _process_method_loop (platform false false) "node" "kangas" m_terminate
       [3; 9] (world_of vanished_table)
     = _process_method_loop (platform false false) "node" "kangas" m_terminate
         [9] (world_of vanished_table).
Proof.
  split; [reflexivity|].
  exact (scans_skip_failed_lookup (platform false false) "node" "kangas"
           m_terminate (world_of vanished_table) [] 3 [9] NoSuchProcess
           eq_refl).
Defined.

Lemma scans_raise_at_first_unreadable_witness :
  _is_running "node" "kangas" (world_of halfread_table) = Raise AccessDenied
  /\ _process_method (platform false false) "node" "kangas" m_terminate
       (world_of halfread_table)
     = Raises AccessDenied (world_of halfread_table).
Proof.
  refine (scans_raise_at_first_unreadable (platform false false)
            "node" "kangas" m_terminate (world_of halfread_table)
            [1] 4 [9] _ AccessDenied eq_refl _ eq_refl _).
  - passed.
  - right. exists "node". repeat split.
Defined.

Lemma scans_pass_over_other_names_witness :
  _is_running_loop systemd_table "node" "kangas" [2; 9]
  = _is_running_loop systemd_table "node" "kangas" [9]
  /\ _is_running "node" "kangas" (world_of systemd_table) = Ok true.
Proof.
  split; [|reflexivity].
  exact (proj1 (scans_pass_over_other_names (platform false false)
                  "node" "kangas" m_terminate (world_of systemd_table)
                  2 [9] _ "systemd" eq_refl eq_refl eq_refl)).
Defined.

Lemma is_running_true_means_live_match_witness :
  _is_running "node" "kangas" (world_of running_table) = Ok true
  /\ exists pid process,
       Psutil.Process_ running_table pid = Ok process
       /\ Psutil.is_running process = Ok true.
Proof.
  split; [reflexivity|].
  destruct (is_running_true_means_live_match "node" "kangas"
              (world_of running_table) eq_refl)
    as (pre & pid & post & process & n & argv & s & _ & _ & L & _ & _ & _
        & _ & Hr & _).
  exists pid, process. split; [exact L | exact Hr].
Defined.

Lemma terminate_probes_are_disjoint_witness :
  matches "node" "kangas" (live 9 "node" ["node"; "kangas"; "server"]) = Ok true
  /\ matches "kangas" "server" (live 9 "node" ["node"; "kangas"; "server"])
     = Ok false.
Proof.
  split; [reflexivity|].
  exact (terminate_probes_are_disjoint
           (live 9 "node" ["node"; "kangas"; "server"]) eq_refl).
Defined.

Lemma terminate_runs_probes_in_order_witness :
  terminate (platform false false) (world_of stubborn_table)
  = Raises AccessDenied (after (world_of stubborn_table) (EvTerminate 7))
  /\ terminate (platform false false) (world_of two_nodes)
     = _process_method (platform false false) "kangas" "server" m_terminate
         (mkWorld [init_entry; node_entry'; server_entry] None [EvTerminate 7]).
Proof.
  split.
  - refine (proj1 (terminate_runs_probes_in_order (platform false false)
                     (world_of stubborn_table) [] 7 [11]
                     (stubborn 7 "node" ["node"; "kangas"])
                     eq_refl _ eq_refl eq_refl) AccessDenied eq_refl).
    passed.
  - refine (proj2 (terminate_runs_probes_in_order (platform false false)
                     (world_of two_nodes) [1] 7 [9; 11]
                     (live 7 "node" ["node"; "/opt/kangas/server.js"])
                     eq_refl _ eq_refl eq_refl) eq_refl).
    passed.
Defined.

Lemma launch_and_show_abort_witness :
  _is_running "node" "kangas" (world_of unreadable_table) = Raise AccessDenied
  /\ launch (platform false false) None 4000 false (world_of unreadable_table)
     = Raises AccessDenied (world_of unreadable_table)
  /\ show (platform false false) (Some "./example.dg") None 4000 false
       "750px" "100%" (world_of unreadable_table)
     = Raises AccessDenied (world_of unreadable_table).
Proof.
  split; [reflexivity|].
  exact (launch_and_show_abort_when_scan_raises (platform false false)
           (Some "./example.dg") None 4000 false "750px" "100%"
           (world_of unreadable_table) AccessDenied eq_refl).
Defined.

Lemma launch_url_witness :
  launch (platform false false) None 4000 false (world_of running_table)
  = Returns "http://127.0.0.1:4000/" (world_of running_table)
  /\ "http://127.0.0.1:4000/"
     = "http://" ++ fmt_s (get_localhost (platform false false)) ++ ":"
         ++ str 4000 ++ "/".
Proof.
  split; [reflexivity|].
  exact (proj2 (launch_url_is_http_host_port (platform false false) None 4000
                  false (world_of running_table) _ _ eq_refl) eq_refl).
Defined.

Lemma launch_outside_colab_witness :
  _in_colab_environment (platform false false) = false
  /\ KANGAS_BACKEND_PROXY
       (final (launch (platform false false) (Some "localhost") 4000 false
                 (mkWorld quiet_table (Some "https://stale.example/") [])))
     = Some "https://stale.example/"
  /\ trace
       (final (launch (platform false false) (Some "localhost") 4000 false
                 (mkWorld quiet_table (Some "https://stale.example/") [])))
     = [EvPopen ["/usr/bin/python3"; "-m"; "kangas.cli.server";
                 "--frontend-port"; "4000"; "--backend-port"; "4001";
                 "--open"; "no"; "--host"; "localhost";
                 "--backend-proxy"; "https://stale.example/"];
        EvSleep 2].
Proof.
  split; [reflexivity|]. split; [|reflexivity].
  exact (proj1 (launch_outside_colab_keeps_proxy_token (platform false false)
                  (Some "localhost") 4000 false
                  (mkWorld quiet_table (Some "https://stale.example/") [])
                  eq_refl)).
Defined.

Lemma launch_in_colab_witness :
  _in_colab_environment (platform true false) = true
  /\ _is_running "node" "kangas" (world_of quiet_table) = Ok false
  /\ terminate (platform true false) (world_of quiet_table)
     = Returns tt (world_of quiet_table)
  /\ KANGAS_BACKEND_PROXY
       (final (launch (platform true false) (Some "localhost") 4000 false
                 (world_of quiet_table)))
     = Some "https://proxy.example/".
Proof.
  split; [reflexivity|]. split; [reflexivity|]. split; [reflexivity|].
  exact (proj1 (proj2 (launch_in_colab_stores_and_passes_token
                         (platform true false) (Some "localhost") 4000 false
                         (world_of quiet_table) (world_of quiet_table)
                         eq_refl eq_refl eq_refl)
                  (Some "https://proxy.example/") eq_refl)).
Defined.
